(** * Feature-compare: the key normaliser, the two scrapers and the
      /compare handler of [src/app.py]

    Python values are embedded as follows.

    - A [str] is the list of its Unicode code points ([pystr], over [N]).
      [str.strip] is modelled on the whole of Unicode (the white-space set
      of [str.isspace]).  The case maps behind [str.lower] and [str.title]
      are tabulated for ASCII and for the Latin ligature block
      U+FB00..U+FB06 (whose title-case forms are two or three ASCII
      letters); other code points are left unchanged by the model, so the
      statements that depend on case mapping carry an [ascii_only]
      hypothesis.
    - A [dict] with string keys and values is an association list in
      insertion order; assigning to an existing key keeps its position.
    - The network, the HTML parser and the renderer are collaborators
      behind a [World] interface; every call that reaches the network is
      recorded in a log which the scrapers and the handler thread through.
    - [scrape_features] reads three module-level names that app.py binds
      nowhere; reading an unbound name raises [NameError], which the
      function's own [except Exception] clause catches.
    - [try]/[except] is a sum: [inl] an exception, [inr] a normal return. *)

From Stdlib Require Import List NArith Bool String Ascii Lia.
From Stdlib Require Import DecimalString.
Import ListNotations.

(* ------------------------------------------------------------------ *)
(** ** Python strings *)

Module PyStr.

Definition pystr := list N.

(** A literal of the source, as code points. *)
Definition py (s : string) : pystr := map N_of_ascii (list_ascii_of_string s).

Definition in_range (lo hi c : N) : bool := (lo <=? c)%N && (c <=? hi)%N.

(** [str.isspace] on one code point (Unicode White_Space plus the
    information separators U+001C..U+001F, as CPython has it). *)
Definition isspace (c : N) : bool :=
  in_range 9 13 c || in_range 28 32 c || (c =? 133)%N || (c =? 160)%N
  || (c =? 5760)%N || in_range 8192 8202 c || (c =? 8232)%N || (c =? 8233)%N
  || (c =? 8239)%N || (c =? 8287)%N || (c =? 12288)%N.

Definition is_upper (c : N) : bool := in_range 65 90 c.
Definition is_lower (c : N) : bool := in_range 97 122 c.
(** U+FB00..U+FB06: ff, fi, fl, ffi, ffl, long-s t, st. *)
Definition is_ligature (c : N) : bool := in_range 64256 64262 c.
Definition is_cased (c : N) : bool := is_upper c || is_lower c || is_ligature c.

Definition is_ascii (c : N) : bool := (c <? 128)%N.
Definition ascii_only (s : pystr) : Prop := Forall (fun c => is_ascii c = true) s.

Definition tolower (c : N) : N := if is_upper c then (c + 32)%N else c.

(** Full title-case mapping of one code point. *)
Definition totitle (c : N) : pystr :=
  if is_lower c then [(c - 32)%N]
  else if (c =? 64256)%N then [70; 102]%N          (* Ff  *)
  else if (c =? 64257)%N then [70; 105]%N          (* Fi  *)
  else if (c =? 64258)%N then [70; 108]%N          (* Fl  *)
  else if (c =? 64259)%N then [70; 102; 105]%N     (* Ffi *)
  else if (c =? 64260)%N then [70; 102; 108]%N     (* Ffl *)
  else if (c =? 64261)%N then [83; 116]%N          (* St  *)
  else if (c =? 64262)%N then [83; 116]%N          (* St  *)
  else [c].

(** [s.lower()] *)
Definition lower (s : pystr) : pystr := map tolower s.

(** [s.title()]: a code point that follows a cased one is lower-cased, any
    other is title-cased. *)
Fixpoint title_from (previous_is_cased : bool) (s : pystr) : pystr :=
  match s with
  | [] => []
  | c :: r =>
      (if previous_is_cased then [tolower c] else totitle c)
        ++ title_from (is_cased c) r
  end.

Definition title (s : pystr) : pystr := title_from false s.

Fixpoint lstrip (s : pystr) : pystr :=
  match s with
  | [] => []
  | c :: r => if isspace c then lstrip r else s
  end.

Definition rstrip (s : pystr) : pystr := rev (lstrip (rev s)).

(** [s.strip()] *)
Definition strip (s : pystr) : pystr := rstrip (lstrip s).

(** [s.startswith(p)] *)
Fixpoint startswith (p s : pystr) : bool :=
  match p, s with
  | [], _ => true
  | _ :: _, [] => false
  | a :: p', b :: s' => (a =? b)%N && startswith p' s'
  end.

(** [p in s] *)
Fixpoint contains (p s : pystr) : bool :=
  startswith p s || match s with [] => false | _ :: r => contains p r end.

Fixpoint eqb (a b : pystr) : bool :=
  match a, b with
  | [], [] => true
  | x :: a', y :: b' => (x =? y)%N && eqb a' b'
  | _, _ => false
  end.

(** [sep.join(items)] *)
Fixpoint join (sep : pystr) (items : list pystr) : pystr :=
  match items with
  | [] => []
  | [x] => x
  | x :: r => x ++ sep ++ join sep r
  end.

(** [str(n)] for a non-negative integer. *)
Definition str_of_nat (n : nat) : pystr :=
  py (NilEmpty.string_of_uint (Nat.to_uint n)).

End PyStr.
Import PyStr.

(* ------------------------------------------------------------------ *)
(** ** Dictionaries *)

Definition dict := list (pystr * pystr).

(** [d[k] = v] *)
Fixpoint dict_set (k v : pystr) (d : dict) : dict :=
  match d with
  | [] => [(k, v)]
  | (k', v') :: r =>
      if eqb k' k then (k', v) :: r else (k', v') :: dict_set k v r
  end.

(** [d.get(k)] *)
Fixpoint dict_get (k : pystr) (d : dict) : option pystr :=
  match d with
  | [] => None
  | (k', v) :: r => if eqb k' k then Some v else dict_get k r
  end.

(** [k in d] *)
Definition dict_has (k : pystr) (d : dict) : bool :=
  match dict_get k d with Some _ => true | None => false end.

(* ------------------------------------------------------------------ *)
(** ** [is_valid_url] and [normalize_key] (app.py, lines 22-44) *)

Definition is_valid_url (url : pystr) : bool :=
  startswith (py "http://") url || startswith (py "https://") url.

(** The [mapping] literal, in declaration order. *)
Definition mapping : dict :=
  [ (py "memory", py "RAM");
    (py "ram", py "RAM");
    (py "internal storage", py "Storage");
    (py "storage", py "Storage");
    (py "battery capacity", py "Battery");
    (py "battery", py "Battery");
    (py "camera", py "Camera");
    (py "main camera", py "Camera");
    (py "display", py "Display");
    (py "screen size", py "Display");
    (py "price", py "Price");
    (py "product", py "Product") ].

(** [for k in m: if k in key: return m[k]] *)
Fixpoint first_match (m : dict) (key : pystr) : option pystr :=
  match m with
  | [] => None
  | (k, v) :: r => if contains k key then Some v else first_match r key
  end.

Definition normalize_key (key : pystr) : pystr :=
  let key := strip (lower key) in
  match first_match mapping key with
  | Some canonical => canonical
  | None => title key
  end.

(* ------------------------------------------------------------------ *)
(** ** Effects: the log of network calls *)

Inductive event : Type :=
| PlainGet (url : pystr)       (* requests.get(url, ...)            *)
| RenderedGet (url : pystr).   (* HTMLSession().get(url) + render() *)

Definition log := list event.

Definition IO (A : Type) : Type := log -> A * log.

Definition ret {A} (a : A) : IO A := fun l => (a, l).

Definition bind {A B} (m : IO A) (f : A -> IO B) : IO B :=
  fun l => let (a, l') := m l in f a l'.

Definition emit (e : event) : IO unit := fun l => (tt, l ++ [e]).

Notation "x <- m ;; k" := (bind m (fun x => k))
  (at level 61, m at next level, right associativity).

(** Exceptions, as far as the two [except] clauses tell them apart. *)
Inductive exn : Type :=
| RequestException (msg : pystr)
| OtherException (msg : pystr).

(* ------------------------------------------------------------------ *)
(** ** Collaborators *)

(** A [requests.Response]: [raise_for_status] is the message of the
    [HTTPError] it raises (a [RequestException]), if it raises. *)
Record Response : Type := {
  raise_for_status : option pystr;
  content : list N
}.

(** A parsed document, by its answers to the queries of
    [scrape_features]. Texts are those of [get_text(strip=True)]. *)
Record Soup : Type := {
  find_h1 : option pystr;
  (** [soup.find('meta', attrs={'name': 'description'})]: the tag, if any,
      with its [content] attribute, if any *)
  find_meta_description : option (option pystr);
  (** [soup.find_all(['ul', 'ol'])], each with the texts of its [li]s *)
  find_all_ul_ol : list (list pystr);
  find_title : option pystr
}.

(** A rendered page, by its answers to the queries of
    [scrape_dynamic_features]. Texts are the [.text] of the elements. *)
Record HTML : Type := {
  productTitle : option pystr;
  a_price_a_offscreen : option pystr;
  (** rows of the two product-detail tables: first [th], first [td] *)
  productDetails_tr : list (option pystr * option pystr);
  span_B_NuCI : option pystr;
  div_30jeq3_16Jk6d : option pystr;
  (** [div._1UhVsV > div] sections, their [tr]s, their [td] cells *)
  div_1UhVsV_div : list (list (list pystr))
}.

(** What the code finds around it when it runs. The first three fields
    are the libraries it calls. The last three are the module-level names
    that [scrape_features] reads: what each is bound to when the line
    runs, [None] when it is unbound. app.py binds none of them, neither by
    a definition nor by an import. *)
Class World : Type := {
  requests_get : pystr -> exn + Response;
  BeautifulSoup : list N -> Soup;
  session_get_render : pystr -> exn + HTML;
  extract_text : option (Soup -> list pystr -> pystr -> option pystr);
  PRICE_SELECTORS : option (list pystr);
  DESC_SELECTORS : option (list pystr)
}.

(* ------------------------------------------------------------------ *)
(** ** The scrapers *)

Section Scrapers.
Context {W : World}.

Definition text_or_NA (el : option pystr) : pystr :=
  match el with Some t => strip t | None => py "N/A" end.

(** Lines 56-69, the [if 'amazon' in url] branch. *)
Definition amazon_adapter (html : HTML) : dict :=
  let data := dict_set (py "Product") (text_or_NA (productTitle html)) [] in
  let data := dict_set (py "Price") (text_or_NA (a_price_a_offscreen html)) data in
  fold_left
    (fun data spec =>
       match spec with
       | (Some key_el, Some val_el) =>
           dict_set (normalize_key (strip key_el)) (strip val_el) data
       | _ => data
       end)
    (productDetails_tr html) data.

(** Lines 72-86, the [elif 'flipkart' in url] branch. *)
Definition flipkart_adapter (html : HTML) : dict :=
  let data := dict_set (py "Product") (text_or_NA (span_B_NuCI html)) [] in
  let data := dict_set (py "Price") (text_or_NA (div_30jeq3_16Jk6d html)) data in
  fold_left
    (fun data section =>
       fold_left
         (fun data cells =>
            match cells with
            | [c0; c1] => dict_set (normalize_key (strip c0)) (strip c1) data
            | _ => data
            end)
         section data)
    (div_1UhVsV_div html) data.

(** The [try] block of [scrape_dynamic_features]. *)
Definition scrape_dynamic_features_try (url : pystr) : IO (exn + dict) :=
  _ <- emit (RenderedGet url) ;;
  match session_get_render url with
  | inl e => ret (inl e)
  | inr html =>
      if contains (py "amazon") url then ret (inr (amazon_adapter html))
      else if contains (py "flipkart") url then ret (inr (flipkart_adapter html))
      else ret (inr [(py "error", py "Unsupported platform")])
  end.

Definition str_exn (e : exn) : pystr :=
  match e with RequestException m => m | OtherException m => m end.

Definition scrape_dynamic_features (url : pystr) : IO dict :=
  r <- scrape_dynamic_features_try url ;;
  match r with
  | inr data => ret data
  | inl e =>
      ret [(py "error", py "Error scraping " ++ url ++ py ": " ++ str_exn e)]
  end.

(** Lines 169-173, the loop over the first three lists. *)
Fixpoint feature_lists (i : nat) (uls : list (list pystr)) (features : dict)
  : dict :=
  match uls with
  | [] => features
  | ul :: rest =>
      let items := firstn 5 ul in
      let features :=
        match items with
        | [] => features
        | _ :: _ =>
            dict_set (py "Feature List " ++ str_of_nat (i + 1))
                     (join (py ", ") items) features
        end in
      feature_lists (S i) rest features
  end.

(** [NameError: name '...' is not defined], an [Exception] that is not a
    [RequestException]. *)
Definition name_error (name : pystr) : exn :=
  OtherException (py "name '" ++ name ++ py "' is not defined").

(** The call [extract_text(soup, SELECTORS, label)] of lines 151 and 156:
    the name of the function is read first, then the name of the
    selector table. *)
Definition call_extract_text
    (soup : Soup) (selectors : option (list pystr)) (selectors_name : pystr)
    (label : pystr) : exn + option pystr :=
  match extract_text with
  | None => inl (name_error (py "extract_text"))
  | Some f =>
      match selectors with
      | None => inl (name_error selectors_name)
      | Some table => inr (f soup table label)
      end
  end.

(** Lines 156-163. *)
Definition description_of (soup : Soup) : exn + pystr :=
  match call_extract_text soup DESC_SELECTORS (py "DESC_SELECTORS")
          (py "Description") with
  | inl e => inl e
  | inr (Some (c :: r)) => inr (c :: r)
  | inr _ =>
      match find_meta_description soup with
      | Some meta =>
          let content := match meta with Some v => v | None => [] end in
          inr (firstn 200 content ++ py "...")
      | None => inr (py "No description found")
      end
  end.

(** Lines 143-173: what is found in the parsed document, unless a line
    raises. *)
Definition found_features (soup : Soup) : exn + dict :=
  let features := [] in
  let features :=
    match find_h1 soup with
    | Some title => dict_set (py "Product") title features
    | None => features
    end in
  match call_extract_text soup PRICE_SELECTORS (py "PRICE_SELECTORS")
          (py "Price") with
  | inl e => inl e
  | inr price =>
      let features :=
        match price with
        | Some (c :: r) => dict_set (py "Price") (c :: r) features
        | _ => features
        end in
      match description_of soup with
      | inl e => inl e
      | inr description =>
          let features := dict_set (py "Description") description features in
          inr (if Nat.leb (List.length features) 1
               then feature_lists 0 (firstn 3 (find_all_ul_ol soup)) features
               else features)
      end
  end.

(** Lines 143-185, once the document is parsed: [found_features], or the
    [if not features] descriptor of lines 176-182. *)
Definition features_of (url : pystr) (response : Response) (soup : Soup)
  : exn + dict :=
  match found_features soup with
  | inl e => inl e
  | inr [] =>
      inr [ (py "Title",
             match find_title soup with
             | Some t => t
             | None => py "No title found"
             end);
            (py "URL", url);
            (py "Content Length",
             str_of_nat (List.length (content response)) ++ py " bytes") ]
  | inr (entry :: rest) => inr (entry :: rest)
  end.

(** The [try] block of [scrape_features]. *)
Definition scrape_features_try (url : pystr) : IO (exn + dict) :=
  _ <- emit (PlainGet url) ;;
  match requests_get url with
  | inl e => ret (inl e)
  | inr response =>
      match raise_for_status response with
      | Some msg => ret (inl (RequestException msg))
      | None =>
          let soup := BeautifulSoup (content response) in
          ret (features_of url response soup)
      end
  end.

Definition scrape_features (url : pystr) : IO dict :=
  r <- scrape_features_try url ;;
  match r with
  | inr features => ret features
  | inl (RequestException m) =>
      ret [(py "error", py "Failed to fetch " ++ url ++ py ": " ++ m)]
  | inl (OtherException m) =>
      ret [(py "error", py "Error scraping " ++ url ++ py ": " ++ m)]
  end.

End Scrapers.

(* ------------------------------------------------------------------ *)
(** ** The /compare handler *)

Inductive body : Type :=
| ErrorBody (error : pystr)
| DataBody (data1 data2 : dict).

(** [jsonify(...), status] *)
Definition http_response : Type := (body * N)%type.

(** [request.get_json()]: [None], or a JSON object with string fields. *)
Definition payload : Type := option dict.

Definition falsy (v : option pystr) : bool :=
  match v with Some (_ :: _) => false | _ => true end.

Definition get_str (v : option pystr) : pystr :=
  match v with Some s => s | None => [] end.

(** The first definition of [compare], lines 98-119. *)
Module FirstDefinition.
Section Handler.
Context {W : World}.

(** The conditional expression of lines 111 and 112. *)
Definition route (url : pystr) : IO dict :=
  if contains (py "amazon") url || contains (py "flipkart") url
  then scrape_dynamic_features url
  else scrape_features url.

Definition compare (request : payload) : IO http_response :=
  match request with
  | None | Some [] => ret (ErrorBody (py "Missing JSON payload"), 400%N)
  | Some data =>
      let url1 := dict_get (py "url1") data in
      let url2 := dict_get (py "url2") data in
      if falsy url1 || falsy url2
      then ret (ErrorBody (py "Both URLs are required"), 400%N)
      else
        let url1 := get_str url1 in
        let url2 := get_str url2 in
        if negb (is_valid_url url1 && is_valid_url url2)
        then ret (ErrorBody (py "URLs must start with http:// or https://"),
                  400%N)
        else
          result1 <- route url1 ;;
          result2 <- route url2 ;;
          match dict_get (py "error") result1 with
          | Some e => ret (ErrorBody e, 400%N)
          | None =>
              match dict_get (py "error") result2 with
              | Some e => ret (ErrorBody e, 400%N)
              | None => ret (DataBody result1 result2, 200%N)
              end
          end
  end.

End Handler.
End FirstDefinition.

(** The second definition of [compare], lines 194-214. *)
Module SecondDefinition.
Section Handler.
Context {W : World}.

Definition compare (request : payload) : IO http_response :=
  match request with
  | None | Some [] => ret (ErrorBody (py "Missing JSON payload"), 400%N)
  | Some data =>
      let url1 := dict_get (py "url1") data in
      let url2 := dict_get (py "url2") data in
      if falsy url1 || falsy url2
      then ret (ErrorBody (py "Both URLs are required"), 400%N)
      else
        let url1 := get_str url1 in
        let url2 := get_str url2 in
        if negb (is_valid_url url1 && is_valid_url url2)
        then ret (ErrorBody (py "URLs must start with http:// or https://"),
                  400%N)
        else
          result1 <- scrape_features url1 ;;
          result2 <- scrape_features url2 ;;
          match dict_get (py "error") result1 with
          | Some e => ret (ErrorBody e, 400%N)
          | None =>
              match dict_get (py "error") result2 with
              | Some e => ret (ErrorBody e, 400%N)
              | None => ret (DataBody result1 result2, 200%N)
              end
          end
  end.

End Handler.
End SecondDefinition.

(* ------------------------------------------------------------------ *)
(** ** Definitions used to state the properties *)

(** The network call that lines 111-112 make for a URL. *)
Definition fetch_event (url : pystr) : event :=
  if contains (py "amazon") url || contains (py "flipkart") url
  then RenderedGet url
  else PlainGet url.

(** The extraction that lines 111-112 start for a URL leaves its [try]
    block by a [return] of the map [d]. *)
Definition extraction_returns {W : World} (url : pystr) (d : dict) : Prop :=
  if contains (py "amazon") url || contains (py "flipkart") url
  then fst (scrape_dynamic_features_try url []) = inr d
  else fst (scrape_features_try url []) = inr d.

(** Following the spec's words, "the URL's host": what stands between the
    scheme and the first slash, question mark or hash. *)
Fixpoint take_host (s : pystr) : pystr :=
  match s with
  | [] => []
  | c :: r =>
      if (c =? 47)%N || (c =? 63)%N || (c =? 35)%N then [] else c :: take_host r
  end.

Definition url_host (url : pystr) : pystr :=
  if startswith (py "http://") url then take_host (skipn 7 url)
  else if startswith (py "https://") url then take_host (skipn 8 url)
  else [].

(** Following the spec's words, "the URL's host matches marketplace-A or
    marketplace-B". *)
Definition host_matches_marketplace (url : pystr) : bool :=
  contains (py "amazon") (url_host url)
  || contains (py "flipkart") (url_host url).

(** Following the spec's words, "the raw label with each word
    capitalized (title case)". *)
Definition raw_label_title_cased (raw : pystr) : pystr := title raw.

(** The string does not start with white space. *)
Definition no_lead (s : pystr) : Prop :=
  match s with [] => True | c :: _ => isspace c = false end.

(** No key of the dictionary is the reserved one. *)
Definition error_free (d : dict) : Prop := dict_get (py "error") d = None.

(** Lines 114-119 (and 209-214): the answer of [compare] from the two
    extraction results. *)
Definition verdict (result1 result2 : dict) : http_response :=
  match dict_get (py "error") result1 with
  | Some e => (ErrorBody e, 400%N)
  | None =>
      match dict_get (py "error") result2 with
      | Some e => (ErrorBody e, 400%N)
      | None => (DataBody result1 result2, 200%N)
      end
  end.

(** Decide every comparison of the goal that [lia] can decide. *)
Ltac decide_cmp :=
  repeat match goal with
    | |- context [(?a <=? ?b)%N] =>
        first [ replace (a <=? b)%N with true
                  by (symmetry; apply N.leb_le; lia)
              | replace (a <=? b)%N with false
                  by (symmetry; apply N.leb_gt; lia) ]
    | |- context [(?a =? ?b)%N] =>
        first [ replace (a =? b)%N with false
                  by (symmetry; apply N.eqb_neq; lia)
              | replace (a =? b)%N with true
                  by (symmetry; apply N.eqb_eq; lia) ]
    | |- context [(?a <? ?b)%N] =>
        first [ replace (a <? b)%N with true
                  by (symmetry; apply N.ltb_lt; lia)
              | replace (a <? b)%N with false
                  by (symmetry; apply N.ltb_ge; lia) ]
    end.

(** A pattern that neither starts nor ends with white space. *)
Definition solid (p : pystr) : bool :=
  match p with [] => false | h :: _ => negb (isspace h) end
  && match rev p with [] => false | h :: _ => negb (isspace h) end.

(** The [mapping] table without "internal storage", "battery capacity"
    and "main camera". *)
Definition effective_mapping : dict :=
  [ (py "memory", py "RAM");
    (py "ram", py "RAM");
    (py "storage", py "Storage");
    (py "battery", py "Battery");
    (py "camera", py "Camera");
    (py "display", py "Display");
    (py "screen size", py "Display");
    (py "price", py "Price");
    (py "product", py "Product") ].

(** Running a sequence of assignments [d[k] = v]. *)
Definition assign_all (writes : list (pystr * pystr)) (d : dict) : dict :=
  fold_left (fun d kv => dict_set (fst kv) (snd kv) d) writes d.

(** The assignments of lines 60-69, in the order they are run. *)
Definition amazon_writes (html : HTML) : list (pystr * pystr) :=
  (py "Product", text_or_NA (productTitle html))
  :: (py "Price", text_or_NA (a_price_a_offscreen html))
  :: flat_map
       (fun spec =>
          match spec with
          | (Some key_el, Some val_el) =>
              [(normalize_key (strip key_el), strip val_el)]
          | _ => []
          end)
       (productDetails_tr html).

(** The assignments of lines 76-86, in the order they are run. *)
Definition flipkart_writes (html : HTML) : list (pystr * pystr) :=
  (py "Product", text_or_NA (span_B_NuCI html))
  :: (py "Price", text_or_NA (div_30jeq3_16Jk6d html))
  :: flat_map
       (fun section =>
          flat_map
            (fun cells =>
               match cells with
               | [c0; c1] => [(normalize_key (strip c0), strip c1)]
               | _ => []
               end)
            section)
       (div_1UhVsV_div html).


(** The string has no white space at either end. *)
Definition trimmed (s : pystr) : Prop := no_lead s /\ no_lead (rev s).

(** The seven names of the vocabulary. *)
Definition canonical_names : list pystr :=
  [py "RAM"; py "Storage"; py "Battery"; py "Camera"; py "Display";
   py "Price"; py "Product"].

(** *** A small world to run the code in *)

Definition widget_soup : Soup :=
  {| find_h1 := Some (py "Widget");
     find_meta_description := Some (Some (py "A fine widget"));
     find_all_ul_ol := [[py "Light"; py "Cheap"]];
     find_title := Some (py "Widget shop") |}.

Definition bare_soup : Soup :=
  {| find_h1 := None;
     find_meta_description := None;
     find_all_ul_ol := [];
     find_title := None |}.

Definition phone_page : HTML :=
  {| productTitle := Some (py " Phone X ");
     a_price_a_offscreen := None;
     productDetails_tr :=
       [ (Some (py "RAM"), Some (py "8 GB"));
         (Some (py "Internal Storage"), Some (py "128 GB"));
         (None, Some (py "stray cell")) ];
     span_B_NuCI := Some (py "Phone X");
     div_30jeq3_16Jk6d := Some (py "499");
     div_1UhVsV_div :=
       [ [ [py "Battery Capacity"; py "5000 mAh"];
           [py "one cell only"] ] ] |}.

Definition unavailable_page : Response :=
  {| raise_for_status :=
       Some (py "503 Server Error: Service Unavailable for url: http://busy.example/");
     content := [] |}.

(** URLs with "down" in them time out, URLs with "busy" in them answer
    503, URLs with "bare" in them return a page without heading, meta
    description or list; every other plain fetch returns the widget page.
    Rendering always returns the phone page. The three names that app.py
    leaves unbound are unbound. *)
Definition demo_world : World :=
  {| requests_get url :=
       if contains (py "down") url
       then inl (RequestException (py "timed out"))
       else if contains (py "busy") url then inr unavailable_page
       else if contains (py "bare") url
       then inr {| raise_for_status := None; content := py "<p>hello</p>" |}
       else inr {| raise_for_status := None;
                   content := py "<h1>Widget</h1>" |};
     BeautifulSoup bytes :=
       if startswith (py "<h1>") bytes then widget_soup else bare_soup;
     session_get_render url := inr phone_page;
     extract_text := None;
     PRICE_SELECTORS := None;
     DESC_SELECTORS := None |}.

(** A second world: rendering times out, and a plain fetch raises
    something that is not a [RequestException] when the URL has "crash" in
    it. The three names that app.py leaves unbound are unbound. *)
Definition shop_world : World :=
  {| requests_get url :=
       if contains (py "crash") url
       then inl (OtherException (py "boom"))
       else inr {| raise_for_status := None; content := py "<h1>Widget</h1>" |};
     BeautifulSoup bytes := widget_soup;
     session_get_render url := inl (RequestException (py "render timed out"));
     extract_text := None;
     PRICE_SELECTORS := None;
     DESC_SELECTORS := None |}.

Definition request_of (url1 url2 : pystr) : payload :=
  Some [(py "url1", url1); (py "url2", url2)].

(** "a" followed by a space and the ligature U+FB06 ("st") and "orage". *)
Definition a_st_orage : pystr := py "a " ++ [64262%N] ++ py "orage".

(* ================================================================== *)
(** * Properties *)

Example normalize_key_internal_storage :
  normalize_key (py "Internal Storage") = py "Storage".
Proof. reflexivity. Qed.

Example normalize_key_weight :
  normalize_key (py "  item WEIGHT ") = py "Item Weight".
Proof. reflexivity. Qed.

Example amazon_adapter_phone :
  amazon_adapter phone_page =
  [ (py "Product", py "Phone X"); (py "Price", py "N/A");
    (py "RAM", py "8 GB"); (py "Storage", py "128 GB") ].
Proof. reflexivity. Qed.

Example flipkart_adapter_phone :
  flipkart_adapter phone_page =
  [ (py "Product", py "Phone X"); (py "Price", py "499");
    (py "Battery", py "5000 mAh") ].
Proof. reflexivity. Qed.

Example scrape_features_widget :
  @scrape_features demo_world (py "https://shop.example/w") [] =
  ([ (py "error",
      py "Error scraping https://shop.example/w: name 'extract_text' is not defined") ],
   [PlainGet (py "https://shop.example/w")]).
Proof. reflexivity. Qed.

Example compare_down :
  @FirstDefinition.compare demo_world
    (request_of (py "http://down.example/p") (py "http://shop.example/q")) [] =
  ((ErrorBody (py "Failed to fetch http://down.example/p: timed out"), 400%N),
   [PlainGet (py "http://down.example/p"); PlainGet (py "http://shop.example/q")]).
Proof. reflexivity. Qed.

Example normalize_twice :
  normalize_key a_st_orage = py "A Storage" /\
  normalize_key (py "A Storage") = py "Storage".
Proof. split; reflexivity. Qed.

(* ------------------------------------------------------------------ *)
(** ** Facts about strings *)

Lemma in_range_spec lo hi c :
  in_range lo hi c = true <-> (lo <= c <= hi)%N.
Proof.
  unfold in_range. rewrite andb_true_iff, !N.leb_le. tauto.
Qed.

Lemma in_range_false lo hi c :
  in_range lo hi c = false <-> (c < lo \/ hi < c)%N.
Proof.
  unfold in_range. rewrite andb_false_iff, !N.leb_gt. tauto.
Qed.

Lemma eqb_eq a b : eqb a b = true <-> a = b.
Proof.
  revert b. induction a as [|x a IH]; intros [|y b]; simpl;
    try (split; [discriminate | congruence]); try tauto.
  rewrite andb_true_iff, N.eqb_eq, IH. split.
  - intros [-> ->]. reflexivity.
  - intros E. injection E. auto.
Qed.

Lemma eqb_refl a : eqb a a = true.
Proof. apply eqb_eq. reflexivity. Qed.

Lemma eqb_neq a b : eqb a b = false <-> a <> b.
Proof.
  rewrite <- eqb_eq. destruct (eqb a b); split; congruence.
Qed.

Lemma eqb_sym a b : eqb a b = eqb b a.
Proof.
  destruct (eqb a b) eqn:E; symmetry.
  - apply eqb_eq. symmetry. apply eqb_eq, E.
  - apply eqb_neq. intros F. apply eqb_neq in E. congruence.
Qed.

Lemma isspace_printable c : (33 <= c <= 132)%N -> isspace c = false.
Proof.
  intros H. unfold isspace, in_range. decide_cmp. reflexivity.
Qed.

Lemma isspace_tolower c : isspace (tolower c) = isspace c.
Proof.
  unfold tolower. destruct (is_upper c) eqn:U; [|reflexivity].
  apply in_range_spec in U.
  rewrite !isspace_printable by lia. reflexivity.
Qed.

Lemma tolower_idem c : tolower (tolower c) = tolower c.
Proof.
  unfold tolower at 2. destruct (is_upper c) eqn:U; [|unfold tolower; now rewrite U].
  apply in_range_spec in U. unfold tolower, is_upper, in_range.
  decide_cmp. reflexivity.
Qed.

Lemma lower_idem s : lower (lower s) = lower s.
Proof.
  unfold lower. rewrite map_map. apply map_ext. exact tolower_idem.
Qed.

Lemma lstrip_lower s : lstrip (lower s) = lower (lstrip s).
Proof.
  induction s as [|c r IH]; simpl; [reflexivity|].
  rewrite isspace_tolower. destruct (isspace c); [exact IH | reflexivity].
Qed.

Lemma lower_rev s : lower (rev s) = rev (lower s).
Proof. unfold lower. apply map_rev. Qed.

Lemma strip_lower s : strip (lower s) = lower (strip s).
Proof.
  unfold strip, rstrip.
  rewrite lstrip_lower, <- lower_rev, lstrip_lower, lower_rev. reflexivity.
Qed.

(** [lstrip] removes a run of white space and nothing else. *)
Lemma lstrip_split s :
  exists w, s = w ++ lstrip s /\ forallb isspace w = true.
Proof.
  induction s as [|c r [w [E F]]]; simpl.
  - exists []. auto.
  - destruct (isspace c) eqn:Sp.
    + exists (c :: w). simpl. rewrite Sp, F. split; [congruence | reflexivity].
    + exists []. auto.
Qed.

Lemma lstrip_no_lead s : no_lead (lstrip s).
Proof.
  induction s as [|c r IH]; simpl; [exact I|].
  destruct (isspace c) eqn:Sp; [exact IH | exact Sp].
Qed.

Lemma lstrip_fixed s : no_lead s -> lstrip s = s.
Proof.
  destruct s as [|c r]; simpl; [reflexivity|]. intros ->. reflexivity.
Qed.

Lemma no_lead_app u w : u <> [] -> no_lead (u ++ w) -> no_lead u.
Proof. destruct u; simpl; [congruence | auto]. Qed.

Lemma strip_no_lead s : no_lead (strip s).
Proof.
  unfold strip, rstrip.
  pose proof (lstrip_no_lead s) as L.
  destruct (lstrip_split (rev (lstrip s))) as [w [E _]].
  set (u := lstrip (rev (lstrip s))) in *.
  destruct (rev u) as [|c r] eqn:R; [exact I|].
  apply (f_equal (@rev N)) in E.
  rewrite rev_involutive, rev_app_distr, R in E.
  rewrite E in L. exact L.
Qed.

Lemma strip_idem s : strip (strip s) = strip s.
Proof.
  unfold strip at 1. rewrite (lstrip_fixed _ (strip_no_lead s)).
  unfold strip at 1 2, rstrip. rewrite rev_involutive.
  rewrite (lstrip_fixed _ (lstrip_no_lead _)). reflexivity.
Qed.

Lemma lstrip_nil_iff s : lstrip s = [] <-> forallb isspace s = true.
Proof.
  induction s as [|c r IH]; simpl; [tauto|].
  destruct (isspace c); simpl; [exact IH | split; discriminate].
Qed.

Lemma strip_nil_iff s : strip s = [] <-> forallb isspace s = true.
Proof.
  unfold strip, rstrip. split.
  - intros H. apply (f_equal (@rev N)) in H. rewrite rev_involutive in H.
    simpl in H. apply lstrip_nil_iff in H.
    destruct (lstrip_split s) as [w [E F]].
    destruct (lstrip s) as [|c r] eqn:L.
    + apply lstrip_nil_iff. exact L.
    + exfalso. pose proof (lstrip_no_lead s) as NL. rewrite L in NL. simpl in NL.
      rewrite forallb_forall in H.
      specialize (H c). rewrite NL in H.
      assert (false = true); [|discriminate].
      apply H. apply in_rev. rewrite rev_involutive. left. reflexivity.
  - intros H. apply lstrip_nil_iff in H. rewrite H. reflexivity.
Qed.

Lemma forallb_isspace_lower s :
  forallb isspace (lower s) = forallb isspace s.
Proof.
  induction s as [|c r IH]; simpl; [reflexivity|].
  rewrite isspace_tolower, IH. reflexivity.
Qed.

Lemma totitle_not_nil c : totitle c <> [].
Proof.
  unfold totitle.
  repeat match goal with |- context [if ?b then _ else _] => destruct b end;
    discriminate.
Qed.

Lemma title_from_not_nil b s : s <> [] -> title_from b s <> [].
Proof.
  destruct s as [|c r]; [congruence|]. intros _. simpl.
  destruct b; simpl; [discriminate|].
  pose proof (totitle_not_nil c). destruct (totitle c); [congruence | discriminate].
Qed.

(** The first code point of a title-cased string is never a lower-case
    ASCII letter. *)
Lemma totitle_head c : exists h t, totitle c = h :: t /\ is_lower h = false.
Proof.
  unfold totitle.
  destruct (is_lower c) eqn:L.
  - apply in_range_spec in L. eexists _, _. split; [reflexivity|].
    apply in_range_false. lia.
  - repeat match goal with
      | |- context [if ?b then _ else _] => destruct b
      end; eexists _, _; (split; [reflexivity|]); try reflexivity; exact L.
Qed.

Lemma title_head s :
  s <> [] -> exists h t, title s = h :: t /\ is_lower h = false.
Proof.
  destruct s as [|c r]; [congruence|]. intros _. unfold title. simpl.
  destruct (totitle_head c) as [h [t [E L]]]. rewrite E.
  exists h, (t ++ title_from (is_cased c) r). auto.
Qed.

Lemma contains_nil p : p <> [] -> contains p [] = false.
Proof. destruct p; [congruence | reflexivity]. Qed.

Lemma first_match_In m key v :
  first_match m key = Some v ->
  exists k, In (k, v) m /\ contains k key = true.
Proof.
  induction m as [|[k w] r IH]; simpl; [discriminate|].
  destruct (contains k key) eqn:C.
  - intros [= ->]. exists k. auto.
  - intros H. destruct (IH H) as [k' [I C']]. exists k'. auto.
Qed.

Lemma first_match_None m key :
  first_match m key = None <->
  forall k v, In (k, v) m -> contains k key = false.
Proof.
  induction m as [|[k w] r IH]; simpl.
  - split; [intros _ ? ? [] | reflexivity].
  - destruct (contains k key) eqn:C.
    + split; [discriminate|]. intros H. rewrite (H k w) in C by auto. discriminate.
    + rewrite IH. split.
      * intros H k' v' [[= <- <-]|I]; eauto.
      * intros H k' v' I. eauto.
Qed.

Lemma first_match_split pre k v post key :
  (forall k' v', In (k', v') pre -> contains k' key = false) ->
  contains k key = true ->
  first_match (pre ++ (k, v) :: post) key = Some v.
Proof.
  induction pre as [|[k0 v0] pre IH]; simpl; intros Hpre Hk.
  - rewrite Hk. reflexivity.
  - rewrite (Hpre k0 v0) by auto. apply IH; eauto.
Qed.

(** A matched label resolves to one of the seven canonical names. *)
Lemma first_match_canonical key v :
  first_match mapping key = Some v ->
  In v [py "RAM"; py "Storage"; py "Battery"; py "Camera"; py "Display";
        py "Price"; py "Product"].
Proof.
  intros H. apply first_match_In in H. destruct H as [k [I _]].
  unfold mapping in I. simpl in I.
  repeat (destruct I as [I|I]; [injection I as _ <-; simpl; tauto|]).
  destruct I.
Qed.

Lemma normalize_key_cases raw :
  (exists v, first_match mapping (strip (lower raw)) = Some v
             /\ normalize_key raw = v) \/
  (first_match mapping (strip (lower raw)) = None
   /\ normalize_key raw = title (strip (lower raw))).
Proof.
  unfold normalize_key.
  destruct (first_match mapping (strip (lower raw))) as [v|]; eauto.
Qed.

Lemma normalize_key_not_error raw : normalize_key raw <> py "error".
Proof.
  destruct (normalize_key_cases raw) as [[v [M ->]]|[_ ->]].
  - apply first_match_canonical in M. simpl in M.
    repeat (destruct M as [<-|M]; [discriminate|]). destruct M.
  - destruct (strip (lower raw)) as [|c r] eqn:K; [discriminate|].
    destruct (title_head (c :: r)) as [h [t [E L]]]; [discriminate|].
    rewrite E. intros F. injection F as -> _. discriminate.
Qed.

Lemma ascii_only_lower s : ascii_only s -> ascii_only (lower s).
Proof.
  unfold ascii_only, lower. intros H. apply Forall_map.
  eapply Forall_impl; [|exact H]. intros c A. simpl in A.
  unfold is_ascii in *. apply N.ltb_lt in A. apply N.ltb_lt.
  unfold tolower. destruct (is_upper c) eqn:U; [|exact A].
  apply in_range_spec in U. lia.
Qed.

Lemma ascii_only_lstrip s : ascii_only s -> ascii_only (lstrip s).
Proof.
  unfold ascii_only. induction 1 as [|c r A H IH]; simpl; [constructor|].
  destruct (isspace c); [exact IH | constructor; assumption].
Qed.

Lemma ascii_only_strip s : ascii_only s -> ascii_only (strip s).
Proof.
  intros H. unfold strip, rstrip, ascii_only.
  apply Forall_rev. apply ascii_only_lstrip. apply Forall_rev.
  apply ascii_only_lstrip. exact H.
Qed.

Lemma lower_totitle_ascii c :
  is_ascii c = true -> lower (totitle c) = [tolower c].
Proof.
  unfold is_ascii. intros A. apply N.ltb_lt in A. unfold totitle.
  destruct (is_lower c) eqn:L.
  - apply in_range_spec in L. simpl. f_equal.
    unfold tolower, is_upper, in_range. decide_cmp. simpl. lia.
  - decide_cmp. reflexivity.
Qed.

Lemma lower_title_from_ascii b s :
  ascii_only s -> lower (title_from b s) = lower s.
Proof.
  intros H. revert b. induction H as [|c r A H IH]; intros b; simpl.
  - reflexivity.
  - unfold lower in *. rewrite map_app, IH. destruct b.
    + simpl. rewrite tolower_idem. reflexivity.
    + fold (lower (totitle c)). rewrite (lower_totitle_ascii _ A). reflexivity.
Qed.

(** The trimmed lower-cased label is what [normalize_key] sees again
    after a title-cased fallback. *)
Lemma key_of_title_ascii s :
  ascii_only s ->
  strip (lower (title (strip (lower s)))) = strip (lower s).
Proof.
  intros H. unfold title. rewrite lower_title_from_ascii.
  - rewrite <- strip_lower, lower_idem. apply strip_idem.
  - apply ascii_only_strip, ascii_only_lower, H.
Qed.

Lemma first_match_mapping_nil : first_match mapping [] = None.
Proof. reflexivity. Qed.

Lemma canonical_fixed v :
  In v [py "RAM"; py "Storage"; py "Battery"; py "Camera"; py "Display";
        py "Price"; py "Product"] ->
  normalize_key v = v.
Proof.
  simpl. intros H.
  repeat (destruct H as [<-|H]; [vm_compute; reflexivity|]). destruct H.
Qed.

(* ------------------------------------------------------------------ *)
(** ** The key normaliser *)

(** C2, as stated, fails: the empty label and a label of white space
    are normalised to the empty string. *)
Lemma normalize_key_empty_label :
  normalize_key [] = [] /\ normalize_key (py "   ") = [].
Proof. split; reflexivity. Qed.

(** C2 (amended). [normalize_key] is a function of its argument alone,
    defined on every string; its result is the empty string exactly when
    the label has no character other than white space, and a non-empty
    string for every other label. *)
Theorem normalize_key_empty_iff (raw : pystr) :
  normalize_key raw = [] <-> forallb isspace raw = true.
Proof.
  rewrite <- forallb_isspace_lower, <- strip_nil_iff.
  destruct (normalize_key_cases raw) as [[v [M ->]]|[_ ->]].
  - split.
    + intros ->. apply first_match_canonical in M. simpl in M.
      repeat (destruct M as [M|M]; [discriminate|]). destruct M.
    + intros E. rewrite E, first_match_mapping_nil in M. discriminate.
  - split.
    + intros T. destruct (strip (lower raw)) as [|c r] eqn:K; [reflexivity|].
      exfalso. apply (title_from_not_nil false (c :: r)); [discriminate|].
      exact T.
    + intros ->. reflexivity.
Qed.

(** C3, as stated, fails twice: a label with "battery" and "storage"
    that also has "ram" resolves to RAM, the name of neither pattern; and
    the fallback title-cases the trimmed label, not the raw one. *)
Lemma normalize_key_precedence_and_trim :
  (contains (py "battery") (py "ram battery storage") = true /\
   contains (py "storage") (py "ram battery storage") = true /\
   normalize_key (py "ram battery storage") = py "RAM") /\
  (first_match mapping (strip (lower (py " gps"))) = None /\
   normalize_key (py " gps") = py "Gps" /\
   raw_label_title_cased (py " gps") = py " Gps").
Proof. repeat split; reflexivity. Qed.

(** C3 (amended). For every raw label, with [key] its lower-cased and
    trimmed form: [normalize_key] returns the canonical name of the first
    pattern, in declaration order, that occurs in [key]; a label in which
    "storage" occurs resolves to Storage (also when "battery" occurs)
    unless "memory" or "ram" occurs in it too; when no pattern occurs the
    result is [key] in title case. *)
Theorem normalize_key_first_match (raw : pystr) :
  let key := strip (lower raw) in
  (forall pre k v post,
      mapping = pre ++ (k, v) :: post ->
      (forall k' v', In (k', v') pre -> contains k' key = false) ->
      contains k key = true ->
      normalize_key raw = v) /\
  (contains (py "storage") key = true ->
   contains (py "memory") key = false ->
   contains (py "ram") key = false ->
   normalize_key raw = py "Storage") /\
  ((forall k v, In (k, v) mapping -> contains k key = false) ->
   normalize_key raw = title key).
Proof.
  intros key.
  assert (First : forall pre k v post,
             mapping = pre ++ (k, v) :: post ->
             (forall k' v', In (k', v') pre -> contains k' key = false) ->
             contains k key = true ->
             normalize_key raw = v).
  { intros pre k v post Hsplit Hpre Hk. unfold normalize_key. fold key.
    rewrite Hsplit, (first_match_split pre k v post key Hpre Hk).
    reflexivity. }
  split; [exact First|]. split.
  - intros Hs Hm Hr.
    destruct (contains (py "internal storage") key) eqn:Hi.
    + apply (First [(py "memory", py "RAM"); (py "ram", py "RAM")]
                   (py "internal storage") (py "Storage")
                   (skipn 3 mapping)); [reflexivity | | exact Hi].
      intros k' v' [[= <- <-]|[[= <- <-]|[]]]; assumption.
    + apply (First [(py "memory", py "RAM"); (py "ram", py "RAM");
                    (py "internal storage", py "Storage")]
                   (py "storage") (py "Storage")
                   (skipn 4 mapping)); [reflexivity | | exact Hs].
      intros k' v' [[= <- <-]|[[= <- <-]|[[= <- <-]|[]]]]; assumption.
  - intros Hnone. unfold normalize_key. fold key.
    apply first_match_None in Hnone. rewrite Hnone. reflexivity.
Qed.

Lemma normalize_key_first_match_witness :
  normalize_key (py "Internal Storage (GB)") = py "Storage" /\
  normalize_key (py "Battery / Storage") = py "Storage" /\
  normalize_key (py "  item WEIGHT ") = py "Item Weight".
Proof.
  split; [|split].
  - apply (proj1 (normalize_key_first_match (py "Internal Storage (GB)"))
             [(py "memory", py "RAM"); (py "ram", py "RAM")]
             (py "internal storage") (py "Storage") (skipn 3 mapping)).
    + reflexivity.
    + intros k' v' [[= <- <-]|[[= <- <-]|[]]]; reflexivity.
    + reflexivity.
  - apply (proj1 (proj2 (normalize_key_first_match (py "Battery / Storage"))));
      reflexivity.
  - apply (proj2 (proj2 (normalize_key_first_match (py "  item WEIGHT ")))).
    apply first_match_None. reflexivity.
Defined.

(** C10, as stated, fails on a string outside ASCII: the ligature U+FB06
    is lower case, so "a", space, U+FB06, "orage" matches no pattern, but its title case
    is "A Storage", which does. *)
Lemma normalize_key_not_idempotent :
  normalize_key a_st_orage = py "A Storage" /\
  normalize_key (normalize_key a_st_orage) = py "Storage" /\
  normalize_key (normalize_key a_st_orage) <> normalize_key a_st_orage.
Proof. repeat split; try reflexivity. discriminate. Qed.

(** C10 (amended). On ASCII strings key normalisation is idempotent:
    [normalize_key (normalize_key s) = normalize_key s]; every canonical
    name of the table maps back to itself, and the title-cased fallback
    output of an ASCII label is a fixed point. *)
Theorem normalize_key_idempotent_ascii :
  (forall s, ascii_only s ->
             normalize_key (normalize_key s) = normalize_key s) /\
  (forall k v, In (k, v) mapping -> normalize_key v = v) /\
  (forall s, ascii_only s ->
             first_match mapping (strip (lower s)) = None ->
             normalize_key (title (strip (lower s))) = title (strip (lower s))).
Proof.
  assert (Fallback : forall s, ascii_only s ->
             first_match mapping (strip (lower s)) = None ->
             normalize_key (title (strip (lower s))) = title (strip (lower s))).
  { intros s A M. unfold normalize_key at 1.
    rewrite (key_of_title_ascii s A), M. reflexivity. }
  split; [|split; [|exact Fallback]].
  - intros s A.
    destruct (normalize_key_cases s) as [[v [M ->]]|[M ->]].
    + apply canonical_fixed, (first_match_canonical _ _ M).
    + apply Fallback; assumption.
  - intros k v I. apply canonical_fixed.
    unfold mapping in I. simpl in I.
    repeat (destruct I as [I|I]; [injection I as _ <-; simpl; tauto|]).
    destruct I.
Qed.

Lemma normalize_key_idempotent_ascii_witness :
  normalize_key (normalize_key (py " item WEIGHT")) =
    normalize_key (py " item WEIGHT") /\
  normalize_key (py "Battery") = py "Battery" /\
  normalize_key (title (strip (lower (py " item WEIGHT")))) =
    py "Item Weight".
Proof.
  assert (A : ascii_only (py " item WEIGHT")).
  { unfold ascii_only. repeat constructor. }
  split; [|split].
  - apply (proj1 normalize_key_idempotent_ascii). exact A.
  - apply (proj1 (proj2 normalize_key_idempotent_ascii)
             (py "battery") (py "Battery")).
    unfold mapping. simpl. tauto.
  - apply (proj2 (proj2 normalize_key_idempotent_ascii) (py " item WEIGHT") A).
    reflexivity.
Defined.

(* ------------------------------------------------------------------ *)
(** ** Facts about dictionaries *)

Lemma dict_get_set k k' v d :
  dict_get k (dict_set k' v d) = if eqb k' k then Some v else dict_get k d.
Proof.
  induction d as [|[k0 v0] r IH]; simpl.
  - reflexivity.
  - destruct (eqb k0 k') eqn:E0; simpl.
    + apply eqb_eq in E0. subst k0. destruct (eqb k' k); reflexivity.
    + rewrite IH. destruct (eqb k0 k) eqn:E1; [|reflexivity].
      apply eqb_eq in E1. subst k0. rewrite eqb_sym, E0. reflexivity.
Qed.

Lemma dict_get_some_length k d v :
  dict_get k d = Some v -> (1 <= List.length d)%nat.
Proof. destruct d; simpl; [discriminate | lia]. Qed.

Lemma dict_has_get k d : dict_has k d = false <-> dict_get k d = None.
Proof.
  unfold dict_has. destruct (dict_get k d); split; congruence.
Qed.

Lemma fold_left_invariant {A B} (P : A -> Prop) (f : A -> B -> A) l a :
  (forall a b, P a -> P (f a b)) -> P a -> P (fold_left f l a).
Proof.
  intros Step. revert a. induction l as [|b l IH]; simpl; auto.
Qed.

Lemma error_free_set k v d :
  k <> py "error" -> error_free d -> error_free (dict_set k v d).
Proof.
  unfold error_free. intros N E. rewrite dict_get_set, E.
  apply eqb_neq in N. rewrite N. reflexivity.
Qed.

Lemma error_free_set_normalized raw v d :
  error_free d -> error_free (dict_set (normalize_key raw) v d).
Proof. apply error_free_set, normalize_key_not_error. Qed.

Lemma amazon_adapter_error_free html : error_free (amazon_adapter html).
Proof.
  unfold amazon_adapter. apply fold_left_invariant.
  - intros d [[k|] [v|]] E; try exact E. apply error_free_set_normalized, E.
  - repeat (apply error_free_set; [discriminate|]). reflexivity.
Qed.

Lemma flipkart_adapter_error_free html : error_free (flipkart_adapter html).
Proof.
  unfold flipkart_adapter. apply fold_left_invariant.
  - intros d section E. apply fold_left_invariant; [|exact E].
    intros d' [|c0 [|c1 [|c2 r]]] E'; try exact E'.
    apply error_free_set_normalized, E'.
  - repeat (apply error_free_set; [discriminate|]). reflexivity.
Qed.

Lemma feature_lists_get k i uls d :
  (forall n, eqb (py "Feature List " ++ str_of_nat n) k = false) ->
  dict_get k (feature_lists i uls d) = dict_get k d.
Proof.
  intros K. revert i d.
  induction uls as [|ul rest IH]; intros i d; cbn [feature_lists].
  - reflexivity.
  - rewrite IH. destruct (firstn 5 ul); [reflexivity|].
    rewrite dict_get_set, K. reflexivity.
Qed.

Section ScraperFacts.
Context {W : World}.

Lemma description_of_not_nil soup desc :
  description_of soup = inr desc -> desc <> [].
Proof.
  unfold description_of.
  destruct (call_extract_text soup DESC_SELECTORS (py "DESC_SELECTORS")
              (py "Description")) as [e|[[|c r]|]];
    try discriminate;
    try (destruct (find_meta_description soup));
    intros [= <-]; try discriminate;
    intros E; apply app_eq_nil in E; destruct E as [_ E]; discriminate E.
Qed.

(** What a normal return of lines 143-173 looks like. *)
Lemma found_features_shape soup d :
  found_features soup = inr d ->
  exists desc,
    description_of soup = inr desc /\
    ((exists t p,
         d = [(py "Product", t); (py "Price", p); (py "Description", desc)]) \/
     (exists t, d = [(py "Product", t); (py "Description", desc)]) \/
     (exists p, d = [(py "Price", p); (py "Description", desc)]) \/
     d = feature_lists 0 (firstn 3 (find_all_ul_ol soup))
           [(py "Description", desc)]).
Proof.
  unfold found_features. cbv zeta.
  destruct (call_extract_text soup PRICE_SELECTORS (py "PRICE_SELECTORS")
              (py "Price")) as [e|price]; [discriminate|].
  destruct (description_of soup) as [e|desc]; [discriminate|].
  intros [= <-]. exists desc. split; [reflexivity|].
  destruct (find_h1 soup) as [t|]; destruct price as [[|c r]|];
    first [ left; do 2 eexists; reflexivity
          | right; left; eexists; reflexivity
          | right; right; left; eexists; reflexivity
          | right; right; right; reflexivity ].
Qed.

Lemma found_features_description soup d :
  found_features soup = inr d ->
  exists desc,
    dict_get (py "Description") d = Some desc /\ desc <> [].
Proof.
  intros F. destruct (found_features_shape soup d F)
    as [desc [D [[t [p ->]] | [[t ->] | [[p ->] | ->]]]]];
    exists desc; (split; [|exact (description_of_not_nil soup desc D)]);
    try reflexivity.
  rewrite feature_lists_get; [reflexivity|]. intros n. reflexivity.
Qed.

Lemma features_of_found url response soup :
  features_of url response soup = found_features soup.
Proof.
  unfold features_of.
  destruct (found_features soup) as [e|[|entry rest]] eqn:F; try reflexivity.
  destruct (found_features_description soup [] F) as [desc [G _]].
  discriminate G.
Qed.

Lemma found_features_error_free soup d :
  found_features soup = inr d -> error_free d.
Proof.
  intros F. destruct (found_features_shape soup d F)
    as [desc [_ [[t [p ->]] | [[t ->] | [[p ->] | ->]]]]];
    try reflexivity.
  unfold error_free. rewrite feature_lists_get; [reflexivity|].
  intros n. reflexivity.
Qed.

Lemma scrape_features_try_run url l :
  scrape_features_try url l
  = (fst (scrape_features_try url []), l ++ [PlainGet url]).
Proof.
  unfold scrape_features_try, bind, emit, ret. simpl.
  destruct (requests_get url) as [e|r]; [reflexivity|].
  destruct (raise_for_status r); reflexivity.
Qed.

Lemma scrape_features_run url l :
  scrape_features url l = (fst (scrape_features url []), l ++ [PlainGet url]).
Proof.
  unfold scrape_features, bind.
  rewrite (scrape_features_try_run url l), (scrape_features_try_run url []).
  simpl. destruct (fst (scrape_features_try url [])) as [[m|m]|d]; reflexivity.
Qed.

Lemma scrape_dynamic_features_try_run url l :
  scrape_dynamic_features_try url l
  = (fst (scrape_dynamic_features_try url []), l ++ [RenderedGet url]).
Proof.
  unfold scrape_dynamic_features_try, bind, emit, ret. simpl.
  destruct (session_get_render url) as [e|html]; [reflexivity|].
  destruct (contains (py "amazon") url); [reflexivity|].
  destruct (contains (py "flipkart") url); reflexivity.
Qed.

Lemma scrape_dynamic_features_run url l :
  scrape_dynamic_features url l
  = (fst (scrape_dynamic_features url []), l ++ [RenderedGet url]).
Proof.
  unfold scrape_dynamic_features, bind.
  rewrite (scrape_dynamic_features_try_run url l),
    (scrape_dynamic_features_try_run url []).
  simpl. destruct (fst (scrape_dynamic_features_try url [])); reflexivity.
Qed.



End ScraperFacts.

(* ------------------------------------------------------------------ *)
(** ** The generic extractor *)

(** C6. The claim does not hold of app.py. [extract_text] is bound
    nowhere, so on a page that was fetched line 151 raises NameError; the
    function returns the failure map of lines 190-192, not a map of
    features, and [compare] answers 400 with its message. *)
Lemma scrape_features_fetched_page_fails :
  @scrape_features demo_world (py "https://shop.example/w") []
  = ([(py "error",
       py "Error scraping https://shop.example/w: name 'extract_text' is not defined")],
     [PlainGet (py "https://shop.example/w")]) /\
  fst (@SecondDefinition.compare demo_world
         (request_of (py "https://shop.example/w") (py "https://shop.example/v"))
         [])
  = (ErrorBody
       (py "Error scraping https://shop.example/w: name 'extract_text' is not defined"),
     400%N).
Proof. split; reflexivity. Qed.

(** C7. The claim does not hold of app.py. Lines 156-164 are not
    reached: on a fetched page without heading, description selector or
    meta description, the result has no Description entry at all; it is
    the failure map of the NameError raised at line 151. *)
Lemma scrape_features_writes_no_description :
  dict_get (py "Description")
    (fst (@scrape_features demo_world (py "https://bare.example/") []))
  = None /\
  fst (@scrape_features demo_world (py "https://bare.example/") [])
  = [(py "error",
      py "Error scraping https://bare.example/: name 'extract_text' is not defined")].
Proof. split; reflexivity. Qed.

(* ------------------------------------------------------------------ *)
(** ** The handler *)

Section HandlerFacts.
Context {W : World}.

Lemma route_run url l :
  FirstDefinition.route url l
  = (fst (FirstDefinition.route url []), l ++ [fetch_event url]).
Proof.
  unfold FirstDefinition.route, fetch_event.
  destruct (contains (py "amazon") url || contains (py "flipkart") url).
  - apply scrape_dynamic_features_run.
  - apply scrape_features_run.
Qed.

Lemma is_valid_url_not_nil url : is_valid_url url = true -> url <> [].
Proof. intros V ->. discriminate V. Qed.

(** The three rejections, or a request with two well-formed URLs. *)
Lemma compare_validation request l :
  (exists msg,
      In msg [py "Missing JSON payload"; py "Both URLs are required";
              py "URLs must start with http:// or https://"] /\
      FirstDefinition.compare request l = ((ErrorBody msg, 400%N), l) /\
      SecondDefinition.compare request l = ((ErrorBody msg, 400%N), l)) \/
  (exists data url1 url2,
      request = Some data /\
      dict_get (py "url1") data = Some url1 /\
      dict_get (py "url2") data = Some url2 /\
      is_valid_url url1 = true /\ is_valid_url url2 = true).
Proof.
  destruct request as [[|p r]|].
  - left. eexists. split; [left; reflexivity|]. split; reflexivity.
  - set (data := p :: r).
    destruct (falsy (dict_get (py "url1") data)
              || falsy (dict_get (py "url2") data)) eqn:F.
    + left. eexists. split; [right; left; reflexivity|].
      unfold FirstDefinition.compare, SecondDefinition.compare.
      cbv beta iota zeta. fold data. rewrite F. split; reflexivity.
    + apply orb_false_iff in F. destruct F as [F1 F2].
      destruct (dict_get (py "url1") data) as [[|c1 u1]|] eqn:G1;
        try discriminate F1.
      destruct (dict_get (py "url2") data) as [[|c2 u2]|] eqn:G2;
        try discriminate F2.
      destruct (is_valid_url (c1 :: u1) && is_valid_url (c2 :: u2)) eqn:V.
      * right. apply andb_true_iff in V. destruct V as [V1 V2].
        exists data, (c1 :: u1), (c2 :: u2). auto.
      * left. eexists. split; [right; right; left; reflexivity|].
        unfold FirstDefinition.compare, SecondDefinition.compare.
        cbv beta iota zeta. fold data. rewrite G1, G2.
        cbn [falsy get_str orb]. rewrite V. split; reflexivity.
  - left. eexists. split; [left; reflexivity|]. split; reflexivity.
Qed.

Lemma first_compare_run data url1 url2 l :
  dict_get (py "url1") data = Some url1 ->
  dict_get (py "url2") data = Some url2 ->
  is_valid_url url1 = true -> is_valid_url url2 = true ->
  FirstDefinition.compare (Some data) l
  = (verdict (fst (FirstDefinition.route url1 []))
             (fst (FirstDefinition.route url2 [])),
     l ++ [fetch_event url1; fetch_event url2]).
Proof.
  intros G1 G2 V1 V2.
  destruct data as [|p r]; [discriminate G1|].
  unfold FirstDefinition.compare. cbv beta iota zeta. rewrite G1, G2.
  destruct url1 as [|c1 u1]; [discriminate V1|].
  destruct url2 as [|c2 u2]; [discriminate V2|].
  cbn [falsy get_str orb]. rewrite V1, V2. cbn [andb negb].
  unfold bind. rewrite (route_run (c1 :: u1) l).
  rewrite (route_run (c2 :: u2) (l ++ [fetch_event (c1 :: u1)])).
  rewrite <- app_assoc. cbn [app]. unfold verdict, ret.
  destruct (dict_get (py "error") (fst (FirstDefinition.route (c1 :: u1) [])));
    [reflexivity|].
  destruct (dict_get (py "error") (fst (FirstDefinition.route (c2 :: u2) [])));
    reflexivity.
Qed.

Lemma second_compare_run data url1 url2 l :
  dict_get (py "url1") data = Some url1 ->
  dict_get (py "url2") data = Some url2 ->
  is_valid_url url1 = true -> is_valid_url url2 = true ->
  SecondDefinition.compare (Some data) l
  = (verdict (fst (scrape_features url1 [])) (fst (scrape_features url2 [])),
     l ++ [PlainGet url1; PlainGet url2]).
Proof.
  intros G1 G2 V1 V2.
  destruct data as [|p r]; [discriminate G1|].
  unfold SecondDefinition.compare. cbv beta iota zeta. rewrite G1, G2.
  destruct url1 as [|c1 u1]; [discriminate V1|].
  destruct url2 as [|c2 u2]; [discriminate V2|].
  cbn [falsy get_str orb]. rewrite V1, V2. cbn [andb negb].
  unfold bind. rewrite (scrape_features_run (c1 :: u1) l).
  rewrite (scrape_features_run (c2 :: u2) (l ++ [PlainGet (c1 :: u1)])).
  rewrite <- app_assoc. cbn [app]. unfold verdict, ret.
  destruct (dict_get (py "error") (fst (scrape_features (c1 :: u1) [])));
    [reflexivity|].
  destruct (dict_get (py "error") (fst (scrape_features (c2 :: u2) [])));
    reflexivity.
Qed.

End HandlerFacts.

Section HandlerProperties.
Context {W : World}.

Lemma route_result_independent url l :
  fst (FirstDefinition.route url l) = fst (FirstDefinition.route url []).
Proof. rewrite route_run. reflexivity. Qed.

Lemma scrape_features_result_independent url l :
  fst (scrape_features url l) = fst (scrape_features url []).
Proof. rewrite scrape_features_run. reflexivity. Qed.

(** A normal return of the plain path has no "error" key. *)
Lemma scrape_features_try_error_free url l features :
  fst (scrape_features_try url l) = inr features -> error_free features.
Proof.
  unfold scrape_features_try, bind, emit, ret. simpl.
  destruct (requests_get url) as [e|r]; [discriminate|].
  destruct (raise_for_status r); [discriminate|]. simpl.
  rewrite features_of_found. apply found_features_error_free.
Qed.

(** A normal return of the rendering path has no "error" key when the
    URL names one of the two marketplaces. *)
Lemma scrape_dynamic_features_try_error_free url l data :
  contains (py "amazon") url || contains (py "flipkart") url = true ->
  fst (scrape_dynamic_features_try url l) = inr data -> error_free data.
Proof.
  unfold scrape_dynamic_features_try, bind, emit, ret. simpl.
  destruct (session_get_render url) as [e|html]; [discriminate|].
  destruct (contains (py "amazon") url).
  - intros _ [= <-]. apply amazon_adapter_error_free.
  - destruct (contains (py "flipkart") url); [|discriminate].
    intros _ [= <-]. apply flipkart_adapter_error_free.
Qed.

(** Every failure message of an extraction that the router starts is one
    of the two [except] messages. *)
Lemma route_error_message url l e :
  dict_get (py "error") (fst (FirstDefinition.route url l)) = Some e ->
  exists rest,
    e = py "Failed to fetch " ++ rest \/ e = py "Error scraping " ++ rest.
Proof.
  unfold FirstDefinition.route.
  destruct (contains (py "amazon") url || contains (py "flipkart") url) eqn:C.
  - unfold scrape_dynamic_features, bind.
    pose proof (scrape_dynamic_features_try_error_free url l) as EF.
    destruct (scrape_dynamic_features_try url l) as [[x|data] l']; simpl in *.
    + intros [= <-]. eexists. right. reflexivity.
    + intros E. rewrite (EF data C eq_refl) in E. discriminate.
  - unfold scrape_features, bind.
    pose proof (scrape_features_try_error_free url l) as EF.
    destruct (scrape_features_try url l) as [[[m|m]|features] l']; simpl in *.
    + intros [= <-]. eexists. left. reflexivity.
    + intros [= <-]. eexists. right. reflexivity.
    + intros E. rewrite (EF features eq_refl) in E. discriminate.
Qed.

(** What an extraction returns to [compare] when its [try] block
    returns normally. *)
Lemma extraction_returns_route url d :
  extraction_returns url d ->
  fst (FirstDefinition.route url []) = d /\ error_free d.
Proof.
  unfold extraction_returns, FirstDefinition.route.
  destruct (contains (py "amazon") url || contains (py "flipkart") url) eqn:C;
    intros R.
  - split; [|exact (scrape_dynamic_features_try_error_free url [] d C R)].
    unfold scrape_dynamic_features, bind.
    destruct (scrape_dynamic_features_try url []) as [r l'].
    simpl in R. subst r. reflexivity.
  - split; [|exact (scrape_features_try_error_free url [] d R)].
    unfold scrape_features, bind.
    destruct (scrape_features_try url []) as [r l'].
    simpl in R. subst r. reflexivity.
Qed.

(** C9. No successful extraction has a key "error": [normalize_key]
    never returns it, a normal return of the generic extractor's [try]
    block and a normal return of a marketplace adapter do not contain it,
    and [compare] answers 200 with both maps whenever both [try] blocks
    return normally. *)
Theorem successful_extraction_has_no_error_key :
  (forall raw, normalize_key raw <> py "error") /\
  (forall url l features,
      fst (scrape_features_try url l) = inr features ->
      dict_has (py "error") features = false) /\
  (forall url l data,
      contains (py "amazon") url || contains (py "flipkart") url = true ->
      fst (scrape_dynamic_features_try url l) = inr data ->
      dict_has (py "error") data = false) /\
  (forall data url1 url2 l data1 data2,
      dict_get (py "url1") data = Some url1 ->
      dict_get (py "url2") data = Some url2 ->
      is_valid_url url1 = true -> is_valid_url url2 = true ->
      extraction_returns url1 data1 -> extraction_returns url2 data2 ->
      fst (FirstDefinition.compare (Some data) l)
      = (DataBody data1 data2, 200%N)).
Proof.
  split; [exact normalize_key_not_error|]. split; [|split].
  - intros url l features H. apply dict_has_get.
    apply (scrape_features_try_error_free url l features H).
  - intros url l data C H. apply dict_has_get.
    apply (scrape_dynamic_features_try_error_free url l data C H).
  - intros data url1 url2 l data1 data2 G1 G2 V1 V2 R1 R2.
    rewrite (first_compare_run data url1 url2 l G1 G2 V1 V2). simpl.
    destruct (extraction_returns_route url1 data1 R1) as [-> E1].
    destruct (extraction_returns_route url2 data2 R2) as [-> E2].
    unfold verdict. rewrite E1, E2. reflexivity.
Qed.

(** C8. The "Unsupported platform" branch is not reached from
    [compare]: called on a URL that contains "amazon" or "flipkart", as
    the router does, [scrape_dynamic_features] does not return that
    failure, and no answer of [compare] carries it. *)
Theorem unsupported_platform_unreachable :
  (forall url l,
      contains (py "amazon") url || contains (py "flipkart") url = true ->
      dict_get (py "error") (fst (scrape_dynamic_features url l))
      <> Some (py "Unsupported platform")) /\
  (forall request l,
      fst (fst (FirstDefinition.compare request l))
      <> ErrorBody (py "Unsupported platform")).
Proof.
  assert (R : forall url l e,
             dict_get (py "error") (fst (FirstDefinition.route url l)) = Some e ->
             e <> py "Unsupported platform").
  { intros url l e H. destruct (route_error_message url l e H) as [rest [-> | ->]];
      discriminate. }
  split.
  - intros url l C H. apply (R url l (py "Unsupported platform")).
    + unfold FirstDefinition.route. rewrite C. exact H.
    + reflexivity.
  - intros request l.
    destruct (compare_validation request l)
      as [[msg [I [E _]]] | [data [url1 [url2 [-> [G1 [G2 [V1 V2]]]]]]]].
    + rewrite E. simpl in I |- *.
      destruct I as [<-|[<-|[<-|[]]]]; discriminate.
    + rewrite (first_compare_run data url1 url2 l G1 G2 V1 V2). simpl.
      unfold verdict.
      destruct (dict_get (py "error") (fst (FirstDefinition.route url1 [])))
        as [e|] eqn:E1.
      * simpl. intros [= ->]. apply (R url1 [] _ E1). reflexivity.
      * destruct (dict_get (py "error") (fst (FirstDefinition.route url2 [])))
          as [e|] eqn:E2; simpl; [|discriminate].
        intros [= ->]. apply (R url2 [] _ E2). reflexivity.
Qed.

(** C1 (amended). When the extraction of the first URL fails, [compare]
    answers 400 with that failure's message and no data, whatever the
    second extraction returns; both extractions have been run by then,
    the second after the first. *)
Theorem first_failure_is_surfaced :
  forall data url1 url2 l e,
    dict_get (py "url1") data = Some url1 ->
    dict_get (py "url2") data = Some url2 ->
    is_valid_url url1 = true -> is_valid_url url2 = true ->
    (dict_get (py "error") (fst (FirstDefinition.route url1 l)) = Some e ->
     FirstDefinition.compare (Some data) l
     = ((ErrorBody e, 400%N), l ++ [fetch_event url1; fetch_event url2])) /\
    (dict_get (py "error") (fst (scrape_features url1 l)) = Some e ->
     SecondDefinition.compare (Some data) l
     = ((ErrorBody e, 400%N), l ++ [PlainGet url1; PlainGet url2])).
Proof.
  intros data url1 url2 l e G1 G2 V1 V2. split; intros E.
  - rewrite route_result_independent in E.
    rewrite (first_compare_run data url1 url2 l G1 G2 V1 V2).
    unfold verdict. rewrite E. reflexivity.
  - rewrite scrape_features_result_independent in E.
    rewrite (second_compare_run data url1 url2 l G1 G2 V1 V2).
    unfold verdict. rewrite E. reflexivity.
Qed.

(** C5. A request without payload, without one of the two URLs, or with
    a URL that starts with neither "http://" nor "https://" is answered
    400 by both definitions of [compare], and the log of network calls is
    left as it was. *)
Theorem invalid_request_is_rejected_without_fetch :
  forall request l,
    (request = None \/
     exists data,
       request = Some data /\
       (dict_get (py "url1") data = None \/
        dict_get (py "url2") data = None \/
        is_valid_url (get_str (dict_get (py "url1") data)) = false \/
        is_valid_url (get_str (dict_get (py "url2") data)) = false)) ->
    exists msg,
      FirstDefinition.compare request l = ((ErrorBody msg, 400%N), l) /\
      SecondDefinition.compare request l = ((ErrorBody msg, 400%N), l).
Proof.
  intros request l H.
  destruct (compare_validation request l)
    as [[msg [_ E]] | [data [url1 [url2 [-> [G1 [G2 [V1 V2]]]]]]]].
  - exists msg. exact E.
  - exfalso. destruct H as [H | [data' [[= <-] H]]]; [discriminate|].
    rewrite G1, G2 in H. simpl in H.
    destruct H as [H|[H|[H|H]]]; congruence.
Qed.

(** C4 (amended). The router takes the rendering path exactly for the
    URLs in which "amazon" or "flipkart" occurs, anywhere in the URL, with
    the first adapter when "amazon" occurs and the second otherwise; every
    other URL takes the plain path and the generic extractor; the path of
    each URL of a comparison depends on that URL alone. *)
Theorem route_by_substring :
  forall url l,
    ((contains (py "amazon") url = true \/ contains (py "flipkart") url = true)
     <-> snd (FirstDefinition.route url l) = l ++ [RenderedGet url]) /\
    ((contains (py "amazon") url = false /\ contains (py "flipkart") url = false)
     <-> snd (FirstDefinition.route url l) = l ++ [PlainGet url]) /\
    (forall html,
        session_get_render url = inr html ->
        (contains (py "amazon") url = true ->
         fst (FirstDefinition.route url l) = amazon_adapter html) /\
        (contains (py "amazon") url = false ->
         contains (py "flipkart") url = true ->
         fst (FirstDefinition.route url l) = flipkart_adapter html)) /\
    (contains (py "amazon") url = false ->
     contains (py "flipkart") url = false ->
     FirstDefinition.route url l = scrape_features url l) /\
    (forall data url2,
        dict_get (py "url1") data = Some url ->
        dict_get (py "url2") data = Some url2 ->
        is_valid_url url = true -> is_valid_url url2 = true ->
        snd (FirstDefinition.compare (Some data) l)
        = l ++ [fetch_event url; fetch_event url2]).
Proof.
  intros url l.
  assert (Ev : snd (FirstDefinition.route url l) = l ++ [fetch_event url]).
  { rewrite route_run. reflexivity. }
  assert (Inj : forall a b : event, l ++ [a] = l ++ [b] -> a = b).
  { intros a b H. apply app_inv_head in H. congruence. }
  unfold fetch_event in Ev.
  repeat split.
  - intros C. rewrite Ev.
    replace (contains (py "amazon") url || contains (py "flipkart") url)
      with true; [reflexivity|].
    symmetry. apply orb_true_iff. exact C.
  - intros H. rewrite Ev in H. apply Inj in H. apply orb_true_iff.
    destruct (contains (py "amazon") url || contains (py "flipkart") url);
      [reflexivity | discriminate H].
  - intros [A F]. rewrite Ev, A, F. reflexivity.
  - rewrite Ev in H. apply Inj in H.
    destruct (contains (py "amazon") url); [discriminate H | reflexivity].
  - rewrite Ev in H. apply Inj in H.
    destruct (contains (py "amazon") url); [discriminate H|].
    destruct (contains (py "flipkart") url); [discriminate H | reflexivity].
  - intros A. unfold FirstDefinition.route, scrape_dynamic_features,
      scrape_dynamic_features_try, bind, emit, ret.
    rewrite A. simpl. rewrite H. reflexivity.
  - intros A F. unfold FirstDefinition.route, scrape_dynamic_features,
      scrape_dynamic_features_try, bind, emit, ret.
    rewrite A, F. simpl. rewrite H. reflexivity.
  - intros A F. unfold FirstDefinition.route. rewrite A, F. reflexivity.
  - intros data url2 G1 G2 V1 V2.
    rewrite (first_compare_run data url url2 l G1 G2 V1 V2). reflexivity.
Qed.

End HandlerProperties.

(* ------------------------------------------------------------------ *)
(** ** The properties at work in the small world *)

(** C1, as stated, fails: the first URL times out, and the second URL is
    fetched all the same, by either definition of [compare]. *)
Lemma second_url_is_fetched_after_first_failure :
  dict_has (py "error")
    (fst (@FirstDefinition.route demo_world (py "http://down.example/p") []))
  = true /\
  snd (@FirstDefinition.compare demo_world
         (request_of (py "http://down.example/p") (py "http://shop.example/q")) [])
  = [PlainGet (py "http://down.example/p"); PlainGet (py "http://shop.example/q")]
  /\
  snd (@SecondDefinition.compare demo_world
         (request_of (py "http://down.example/p") (py "http://shop.example/q")) [])
  = [PlainGet (py "http://down.example/p"); PlainGet (py "http://shop.example/q")].
Proof. repeat split; reflexivity. Qed.

Lemma first_failure_is_surfaced_witness :
  @FirstDefinition.compare demo_world
    (request_of (py "http://down.example/p") (py "http://shop.example/q")) []
  = ((ErrorBody (py "Failed to fetch http://down.example/p: timed out"), 400%N),
     [PlainGet (py "http://down.example/p"); PlainGet (py "http://shop.example/q")])
  /\
  @SecondDefinition.compare demo_world
    (request_of (py "http://busy.example/") (py "http://www.amazon.example/")) []
  = ((ErrorBody
        (py "Failed to fetch http://busy.example/: 503 Server Error: Service Unavailable for url: http://busy.example/"),
      400%N),
     [PlainGet (py "http://busy.example/");
      PlainGet (py "http://www.amazon.example/")]).
Proof.
  split.
  - apply (proj1 (@first_failure_is_surfaced demo_world
                    [(py "url1", py "http://down.example/p");
                     (py "url2", py "http://shop.example/q")]
                    (py "http://down.example/p") (py "http://shop.example/q")
                    [] _ eq_refl eq_refl eq_refl eq_refl)).
    reflexivity.
  - apply (proj2 (@first_failure_is_surfaced demo_world
                    [(py "url1", py "http://busy.example/");
                     (py "url2", py "http://www.amazon.example/")]
                    (py "http://busy.example/") (py "http://www.amazon.example/")
                    [] _ eq_refl eq_refl eq_refl eq_refl)).
    reflexivity.
Defined.

(** C4, as stated, fails: the host of this URL is example.com, and the
    URL is rendered and read by the first marketplace adapter. *)
Lemma route_looks_beyond_the_host :
  url_host (py "https://example.com/amazon-deals") = py "example.com" /\
  host_matches_marketplace (py "https://example.com/amazon-deals") = false /\
  @FirstDefinition.route demo_world (py "https://example.com/amazon-deals") []
  = (amazon_adapter phone_page,
     [RenderedGet (py "https://example.com/amazon-deals")]).
Proof. repeat split; reflexivity. Qed.

Lemma route_by_substring_witness :
  snd (@FirstDefinition.route demo_world (py "https://www.flipkart.com/p") [])
  = [RenderedGet (py "https://www.flipkart.com/p")] /\
  fst (@FirstDefinition.route demo_world (py "https://www.flipkart.com/p") [])
  = flipkart_adapter phone_page /\
  @FirstDefinition.route demo_world (py "https://shop.example/w") []
  = @scrape_features demo_world (py "https://shop.example/w") [] /\
  snd (@FirstDefinition.compare demo_world
         (request_of (py "https://www.flipkart.com/p") (py "https://shop.example/w"))
         [])
  = [RenderedGet (py "https://www.flipkart.com/p");
     PlainGet (py "https://shop.example/w")].
Proof.
  pose proof (@route_by_substring demo_world (py "https://www.flipkart.com/p") [])
    as [Rendered [_ [Adapter [_ Both]]]].
  pose proof (@route_by_substring demo_world (py "https://shop.example/w") [])
    as [_ [_ [_ [Plain _]]]].
  split; [|split; [|split]].
  - apply (proj1 Rendered). right. reflexivity.
  - apply (proj2 (Adapter phone_page eq_refl)); reflexivity.
  - apply Plain; reflexivity.
  - apply (Both [(py "url1", py "https://www.flipkart.com/p");
                 (py "url2", py "https://shop.example/w")]
                (py "https://shop.example/w")); reflexivity.
Defined.

Example compare_rejects_ftp :
  @FirstDefinition.compare demo_world
    (request_of (py "ftp://x") (py "https://y")) []
  = ((ErrorBody (py "URLs must start with http:// or https://"), 400%N), []).
Proof. reflexivity. Qed.

Lemma invalid_request_is_rejected_without_fetch_witness :
  exists msg,
    @FirstDefinition.compare demo_world
      (request_of (py "ftp://x") (py "https://y")) []
    = ((ErrorBody msg, 400%N), []) /\
    @SecondDefinition.compare demo_world
      (request_of (py "ftp://x") (py "https://y")) []
    = ((ErrorBody msg, 400%N), []).
Proof.
  apply (@invalid_request_is_rejected_without_fetch demo_world).
  right. eexists. split; [reflexivity|]. right. right. left. reflexivity.
Defined.

(** Called on a URL the router would not send it, the rendering
    extractor does take its last branch. *)
Example unsupported_platform_when_called_directly :
  @scrape_dynamic_features demo_world (py "https://shop.example/w") []
  = ([(py "error", py "Unsupported platform")],
     [RenderedGet (py "https://shop.example/w")]).
Proof. reflexivity. Qed.

Lemma unsupported_platform_unreachable_witness :
  dict_get (py "error")
    (fst (@scrape_dynamic_features demo_world
            (py "https://www.flipkart.com/p") []))
  <> Some (py "Unsupported platform").
Proof.
  apply (proj1 (@unsupported_platform_unreachable demo_world)).
  reflexivity.
Defined.

Lemma successful_extraction_has_no_error_key_witness :
  dict_has (py "error") (amazon_adapter phone_page) = false /\
  fst (@FirstDefinition.compare demo_world
         (request_of (py "https://www.amazon.example/dp/1")
                     (py "https://www.flipkart.example/p")) [])
  = (DataBody
       [ (py "Product", py "Phone X"); (py "Price", py "N/A");
         (py "RAM", py "8 GB"); (py "Storage", py "128 GB") ]
       [ (py "Product", py "Phone X"); (py "Price", py "499");
         (py "Battery", py "5000 mAh") ],
     200%N).
Proof.
  pose proof (@successful_extraction_has_no_error_key demo_world)
    as [_ [_ [Rendered Both]]].
  split.
  - apply (Rendered (py "https://www.amazon.example/dp/1") []); reflexivity.
  - apply (Both [(py "url1", py "https://www.amazon.example/dp/1");
                 (py "url2", py "https://www.flipkart.example/p")]
                (py "https://www.amazon.example/dp/1")
                (py "https://www.flipkart.example/p") []); reflexivity.
Defined.

(* ================================================================== *)
(** * Further properties of the code *)

(** ** Substrings *)

Lemma startswith_spec p s :
  startswith p s = true <-> exists r, s = p ++ r.
Proof.
  revert s. induction p as [|a p IH]; intros s; simpl.
  - split; [intros _; exists s; reflexivity | reflexivity].
  - destruct s as [|b s].
    + split; [discriminate | intros [r E]; discriminate E].
    + rewrite andb_true_iff, N.eqb_eq, IH. split.
      * intros [-> [r ->]]. exists r. reflexivity.
      * intros [r E]. injection E as -> ->. split; [reflexivity|].
        exists r. reflexivity.
Qed.

Lemma contains_spec p s :
  contains p s = true <-> exists a b, s = a ++ p ++ b.
Proof.
  induction s as [|c r IH].
  - simpl. rewrite orb_false_r, startswith_spec. split.
    + intros [x E]. exists [], x. exact E.
    + intros [a [b E]]. destruct a; [|discriminate E].
      exists b. exact E.
  - cbn [contains]. rewrite orb_true_iff, startswith_spec, IH. split.
    + intros [[x E] | [a [b E]]].
      * exists [], x. exact E.
      * exists (c :: a), b. rewrite E. reflexivity.
    + intros [[|c' a] [b E]].
      * left. exists b. exact E.
      * right. injection E as -> ->. exists a, b. reflexivity.
Qed.

Lemma bool_eq_iff (a b : bool) : (a = true <-> b = true) -> a = b.
Proof.
  destruct a, b; intros [H1 H2]; try reflexivity.
  - symmetry. apply H1. reflexivity.
  - apply H2. reflexivity.
Qed.

Lemma contains_rev p s : contains (rev p) (rev s) = contains p s.
Proof.
  apply bool_eq_iff. rewrite !contains_spec. split.
  - intros [a [b E]]. exists (rev b), (rev a).
    apply (f_equal (@rev N)) in E.
    rewrite rev_involutive, !rev_app_distr, rev_involutive in E.
    rewrite E, app_assoc. reflexivity.
  - intros [a [b ->]]. exists (rev b), (rev a).
    rewrite !rev_app_distr, app_assoc. reflexivity.
Qed.

Lemma contains_trans p q s :
  contains p q = true -> contains q s = true -> contains p s = true.
Proof.
  rewrite !contains_spec. intros [a [b ->]] [a' [b' ->]].
  exists (a' ++ a), (b ++ b'). rewrite <- !app_assoc. reflexivity.
Qed.

Lemma contains_lstrip h t s :
  isspace h = false -> contains (h :: t) (lstrip s) = contains (h :: t) s.
Proof.
  intros Hh. induction s as [|c r IH]; [reflexivity|].
  cbn [lstrip]. destruct (isspace c) eqn:Sp; [|reflexivity].
  rewrite IH. cbn [contains startswith].
  destruct (N.eqb_spec h c) as [->|_]; [congruence | reflexivity].
Qed.

Lemma contains_strip p s : solid p = true -> contains p (strip s) = contains p s.
Proof.
  unfold solid. intros S. apply andb_true_iff in S. destruct S as [S1 S2].
  destruct p as [|h t]; [discriminate S1|].
  destruct (rev (h :: t)) as [|h' t'] eqn:R; [discriminate S2|].
  apply negb_true_iff in S1, S2.
  unfold strip, rstrip.
  rewrite <- (contains_rev (h :: t)), rev_involutive, R.
  rewrite (contains_lstrip h' t' _ S2), <- R, contains_rev.
  apply contains_lstrip, S1.
Qed.

Lemma first_match_strip m s :
  forallb (fun kv => solid (fst kv)) m = true ->
  first_match m (strip s) = first_match m s.
Proof.
  induction m as [|[k v] r IH]; simpl; [reflexivity|].
  intros S. apply andb_true_iff in S. destruct S as [Sk Sr].
  rewrite (contains_strip k s Sk), (IH Sr). reflexivity.
Qed.

Lemma first_match_mapping_strip s :
  first_match mapping (strip s) = first_match mapping s.
Proof. apply first_match_strip. reflexivity. Qed.

(* ------------------------------------------------------------------ *)
(** ** [is_valid_url] and [normalize_key], further *)

(** X1. [is_valid_url] accepts exactly the strings that begin with the
    lower-case prefix "http://" or "https://"; nothing is asked of what
    follows the prefix. *)
Theorem is_valid_url_spec (url : pystr) :
  is_valid_url url = true <->
  exists rest, url = py "http://" ++ rest \/ url = py "https://" ++ rest.
Proof.
  unfold is_valid_url. rewrite orb_true_iff, !startswith_spec. split.
  - intros [[r E] | [r E]]; exists r; auto.
  - intros [r [E | E]]; [left | right]; exists r; exact E.
Qed.

(** X2. [normalize_key] does not see white space around the label, nor,
    on ASCII labels, the case of its letters. *)
Theorem normalize_key_ignores_case_and_margin :
  (forall s, normalize_key (strip s) = normalize_key s) /\
  (forall s, ascii_only s -> normalize_key (lower s) = normalize_key s).
Proof.
  split.
  - intros s. unfold normalize_key.
    rewrite (strip_lower (strip s)), strip_idem, <- strip_lower. reflexivity.
  - intros s _. unfold normalize_key. rewrite lower_idem. reflexivity.
Qed.

Lemma normalize_key_ignores_case_and_margin_witness :
  normalize_key (strip (py "  Screen Size ")) = normalize_key (py "  Screen Size ")
  /\ normalize_key (lower (py "WEIGHT")) = normalize_key (py "WEIGHT").
Proof.
  split.
  - apply (proj1 normalize_key_ignores_case_and_margin).
  - apply (proj2 normalize_key_ignores_case_and_margin).
    unfold ascii_only. repeat constructor.
Defined.

(** X3. Trimming never changes which pattern is found: the pattern that
    decides [normalize_key] is the first one, in declaration order, that
    occurs in the lower-cased label, trimmed or not. *)
Theorem normalize_key_match_before_trim (raw : pystr) :
  first_match mapping (strip (lower raw)) = first_match mapping (lower raw) /\
  normalize_key raw
  = match first_match mapping (lower raw) with
    | Some canonical => canonical
    | None => title (strip (lower raw))
    end.
Proof.
  split; [apply first_match_mapping_strip|].
  unfold normalize_key. rewrite first_match_mapping_strip. reflexivity.
Qed.

(** X4. Three entries of the table never decide the result: "internal
    storage" and "battery capacity" sit before a shorter pattern with the
    same name, "main camera" sits after "camera". The table gives the same
    answer without them. *)
Theorem mapping_redundant_entries (key : pystr) :
  first_match mapping key = first_match effective_mapping key.
Proof.
  unfold mapping, effective_mapping. cbn [first_match].
  destruct (contains (py "memory") key); [reflexivity|].
  destruct (contains (py "ram") key); [reflexivity|].
  destruct (contains (py "storage") key) eqn:St.
  - destruct (contains (py "internal storage") key); reflexivity.
  - destruct (contains (py "internal storage") key) eqn:Is.
    + rewrite (contains_trans (py "storage") (py "internal storage") key
                 eq_refl Is) in St. discriminate St.
    + destruct (contains (py "battery") key) eqn:Ba.
      * destruct (contains (py "battery capacity") key); reflexivity.
      * destruct (contains (py "battery capacity") key) eqn:Bc.
        { rewrite (contains_trans (py "battery") (py "battery capacity") key
                     eq_refl Bc) in Ba. discriminate Ba. }
        destruct (contains (py "camera") key) eqn:Ca; [reflexivity|].
        destruct (contains (py "main camera") key) eqn:Mc; [|reflexivity].
        rewrite (contains_trans (py "camera") (py "main camera") key
                   eq_refl Mc) in Ca. discriminate Ca.
Qed.

(** X5. A label in which "memory" or "ram" occurs anywhere, in any letter
    case of the model, inside any word, is normalised to RAM whatever
    else it contains. *)
Theorem normalize_key_ram_dominates (raw : pystr) :
  contains (py "memory") (lower raw) = true \/
  contains (py "ram") (lower raw) = true ->
  normalize_key raw = py "RAM".
Proof.
  intros H. unfold normalize_key. rewrite first_match_mapping_strip.
  unfold mapping. cbn [first_match].
  destruct (contains (py "memory") (lower raw)); [reflexivity|].
  destruct H as [H|H]; [discriminate H|]. rewrite H. reflexivity.
Qed.

Lemma normalize_key_ram_dominates_witness :
  normalize_key (py "Frame Rate") = py "RAM" /\
  normalize_key (py "Battery / Storage (program)") = py "RAM".
Proof.
  split; apply normalize_key_ram_dominates; right; reflexivity.
Defined.

(* ------------------------------------------------------------------ *)
(** ** Dictionaries as the adapters fill them *)

Lemma dict_get_app k a b :
  dict_get k (a ++ b)
  = match dict_get k a with Some v => Some v | None => dict_get k b end.
Proof.
  induction a as [|[k' v'] r IH]; simpl; [reflexivity|].
  destruct (eqb k' k); [reflexivity | exact IH].
Qed.

Lemma dict_get_assign_all k writes d :
  dict_get k (assign_all writes d)
  = match dict_get k (rev writes) with
    | Some v => Some v
    | None => dict_get k d
    end.
Proof.
  unfold assign_all. revert d.
  induction writes as [|[k' v'] r IH]; intros d; simpl; [reflexivity|].
  rewrite IH, dict_get_app, dict_get_set. simpl.
  destruct (dict_get k (rev r)); [reflexivity|].
  destruct (eqb k' k); reflexivity.
Qed.

Lemma dict_get_None_keys k d : dict_get k d = None <-> ~ In k (map fst d).
Proof.
  induction d as [|[k' v'] r IH]; simpl; [tauto|].
  destruct (eqb k' k) eqn:E.
  - apply eqb_eq in E. split; [discriminate | intros H; exfalso; auto].
  - apply eqb_neq in E. rewrite IH. tauto.
Qed.

Lemma dict_set_keys k v d :
  map fst (dict_set k v d)
  = if dict_has k d then map fst d else map fst d ++ [k].
Proof.
  unfold dict_has. induction d as [|[k' v'] r IH]; simpl; [reflexivity|].
  destruct (eqb k' k); simpl; [reflexivity|].
  rewrite IH. destruct (dict_get k r); reflexivity.
Qed.

Lemma dict_set_NoDup k v d :
  NoDup (map fst d) -> NoDup (map fst (dict_set k v d)).
Proof.
  intros ND. rewrite dict_set_keys. unfold dict_has.
  destruct (dict_get k d) eqn:G; [exact ND|].
  apply dict_get_None_keys in G.
  apply NoDup_rev in ND. rewrite <- (rev_involutive (map fst d ++ [k])).
  apply NoDup_rev. rewrite rev_app_distr. simpl. constructor; [|exact ND].
  rewrite <- in_rev. exact G.
Qed.

Lemma dict_set_length k v d :
  (List.length (dict_set k v d) <= S (List.length d))%nat.
Proof.
  rewrite <- (length_map fst (dict_set k v d)), dict_set_keys.
  destruct (dict_has k d); rewrite ?length_app, length_map; simpl; lia.
Qed.

Lemma assign_all_shape writes d :
  NoDup (map fst d) ->
  (exists extra, map fst (assign_all writes d) = map fst d ++ extra) /\
  NoDup (map fst (assign_all writes d)) /\
  (List.length (assign_all writes d)
   <= List.length d + List.length writes)%nat.
Proof.
  unfold assign_all. revert d.
  induction writes as [|[k v] r IH]; intros d ND; simpl.
  - split; [exists []; rewrite app_nil_r; reflexivity|]. split; [exact ND | lia].
  - destruct (IH (dict_set k v d) (dict_set_NoDup k v d ND))
      as [[extra E] [ND' L]].
    split; [|split; [exact ND'|]].
    + rewrite E, dict_set_keys. destruct (dict_has k d).
      * exists extra. reflexivity.
      * exists (k :: extra). rewrite <- app_assoc. reflexivity.
    + pose proof (dict_set_length k v d). lia.
Qed.

Lemma fold_left_flat_map {A B C} (f : A -> C -> A) (g : B -> list C) l a :
  fold_left f (flat_map g l) a
  = fold_left (fun a x => fold_left f (g x) a) l a.
Proof.
  revert a. induction l as [|x l IH]; intros a; simpl; [reflexivity|].
  rewrite fold_left_app. apply IH.
Qed.

Lemma fold_left_pointwise {A B} (f g : A -> B -> A) l a :
  (forall a b, f a b = g a b) -> fold_left f l a = fold_left g l a.
Proof.
  intros E. revert a. induction l as [|x l IH]; intros a; simpl; [reflexivity|].
  rewrite E. apply IH.
Qed.

Lemma amazon_adapter_assign html :
  amazon_adapter html = assign_all (amazon_writes html) [].
Proof.
  unfold amazon_adapter, amazon_writes, assign_all. cbn [fold_left fst snd].
  rewrite fold_left_flat_map. apply fold_left_pointwise.
  intros d [[k|] [v|]]; reflexivity.
Qed.

Lemma flipkart_adapter_assign html :
  flipkart_adapter html = assign_all (flipkart_writes html) [].
Proof.
  unfold flipkart_adapter, flipkart_writes, assign_all. cbn [fold_left fst snd].
  rewrite fold_left_flat_map. apply fold_left_pointwise.
  intros d section. rewrite fold_left_flat_map. apply fold_left_pointwise.
  intros d' [|c0 [|c1 [|c2 r]]]; reflexivity.
Qed.

Lemma assign_all_product_price a b writes :
  let d := assign_all ((py "Product", a) :: (py "Price", b) :: writes) [] in
  (exists rest, map fst d = py "Product" :: py "Price" :: rest) /\
  NoDup (map fst d) /\
  (List.length d <= 2 + List.length writes)%nat.
Proof.
  intros d. subst d. unfold assign_all. cbn [fold_left fst snd].
  change (fold_left (fun d kv => dict_set (fst kv) (snd kv) d) writes
            (dict_set (py "Price") b (dict_set (py "Product") a [])))
    with (assign_all writes [(py "Product", a); (py "Price", b)]).
  destruct (assign_all_shape writes [(py "Product", a); (py "Price", b)])
    as [[extra E] [ND L]].
  { simpl. repeat constructor; simpl; [|tauto].
    intros [H|[]]. discriminate H. }
  split; [exists extra; exact E|]. split; [exact ND | exact L].
Qed.

(* ------------------------------------------------------------------ *)
(** ** The marketplace adapters, further *)

(** X6. In both adapters a later assignment to a key replaces the value
    of an earlier one: the value under any key is that of the last
    assignment made to it, and a key never assigned is absent. *)
Theorem adapter_last_write_wins (html : HTML) (k : pystr) :
  dict_get k (amazon_adapter html) = dict_get k (rev (amazon_writes html)) /\
  dict_get k (flipkart_adapter html) = dict_get k (rev (flipkart_writes html)).
Proof.
  rewrite amazon_adapter_assign, flipkart_adapter_assign.
  rewrite !dict_get_assign_all.
  split.
  - destruct (dict_get k (rev (amazon_writes html))); reflexivity.
  - destruct (dict_get k (rev (flipkart_writes html))); reflexivity.
Qed.

Lemma flat_map_length_le {A B} (g : A -> list B) l :
  (forall x, List.length (g x) <= 1)%nat ->
  (List.length (flat_map g l) <= List.length l)%nat.
Proof.
  intros G. induction l as [|x l IH]; simpl; [lia|].
  rewrite length_app. pose proof (G x). lia.
Qed.

Lemma amazon_writes_length html :
  (List.length (amazon_writes html)
   <= 2 + List.length (productDetails_tr html))%nat.
Proof.
  unfold amazon_writes. cbn [List.length].
  apply le_n_S, le_n_S, flat_map_length_le.
  intros [[x|] [y|]]; simpl; lia.
Qed.

Lemma flipkart_writes_length html :
  (List.length (flipkart_writes html)
   <= 2 + List.length (List.concat (div_1UhVsV_div html)))%nat.
Proof.
  unfold flipkart_writes. cbn [List.length]. apply le_n_S, le_n_S.
  induction (div_1UhVsV_div html) as [|section r IH]; simpl; [lia|].
  rewrite !length_app.
  pose proof (flat_map_length_le
                (fun cells : list pystr =>
                   match cells with
                   | [c0; c1] => [(normalize_key (strip c0), strip c1)]
                   | _ => []
                   end) section) as S.
  assert (L1 : forall cells : list pystr,
             (List.length
                match cells with
                | [c0; c1] => [(normalize_key (strip c0), strip c1)]
                | _ => []
                end <= 1)%nat).
  { intros [|c0 [|c1 [|c2 t]]]; simpl; lia. }
  specialize (S L1). lia.
Qed.

(** X7. The map an adapter returns begins with the keys Product and
    Price, in that order, has no key twice, and has at most two entries
    more than there are specification rows. *)
Theorem adapter_keys (html : HTML) :
  ((exists rest,
       map fst (amazon_adapter html) = py "Product" :: py "Price" :: rest) /\
   NoDup (map fst (amazon_adapter html)) /\
   (List.length (amazon_adapter html)
    <= 2 + List.length (productDetails_tr html))%nat) /\
  ((exists rest,
       map fst (flipkart_adapter html) = py "Product" :: py "Price" :: rest) /\
   NoDup (map fst (flipkart_adapter html)) /\
   (List.length (flipkart_adapter html)
    <= 2 + List.length (List.concat (div_1UhVsV_div html)))%nat).
Proof.
  split.
  - rewrite amazon_adapter_assign.
    pose proof (amazon_writes_length html) as Len. revert Len.
    unfold amazon_writes. cbn [List.length].
    match goal with |- context [flat_map ?g ?l] =>
      destruct (assign_all_product_price
                  (text_or_NA (productTitle html))
                  (text_or_NA (a_price_a_offscreen html))
                  (flat_map g l)) as [K [ND L]]
    end.
    intros Len. split; [exact K|]. split; [exact ND | lia].
  - rewrite flipkart_adapter_assign.
    pose proof (flipkart_writes_length html) as Len. revert Len.
    unfold flipkart_writes. cbn [List.length].
    match goal with |- context [flat_map ?g ?l] =>
      destruct (assign_all_product_price
                  (text_or_NA (span_B_NuCI html))
                  (text_or_NA (div_30jeq3_16Jk6d html))
                  (flat_map g l)) as [K [ND L]]
    end.
    intros Len. split; [exact K|]. split; [exact ND | lia].
Qed.

(** A specification row can replace the page title: its label has
    "product" in it. *)
Example amazon_row_replaces_title :
  dict_get (py "Product")
    (amazon_adapter
       {| productTitle := Some (py "Phone X");
          a_price_a_offscreen := Some (py "499");
          productDetails_tr :=
            [(Some (py "Product Dimensions"), Some (py "15 x 7 x 1 cm"))];
          span_B_NuCI := None;
          div_30jeq3_16Jk6d := None;
          div_1UhVsV_div := [] |})
  = Some (py "15 x 7 x 1 cm").
Proof. reflexivity. Qed.

(* ------------------------------------------------------------------ *)
(** ** The generic extractor, further *)

Section GenericExtractor.
Context {W : World}.

Lemma feature_lists_length i uls d :
  (List.length (feature_lists i uls d) <= List.length d + List.length uls)%nat.
Proof.
  revert i d. induction uls as [|ul rest IH]; intros i d; cbn [feature_lists].
  - simpl. lia.
  - destruct (firstn 5 ul).
    + specialize (IH (S i) d). cbn [List.length]. lia.
    + match goal with |- context [dict_set ?k ?v d] =>
        specialize (IH (S i) (dict_set k v d));
        pose proof (dict_set_length k v d) end.
      cbn [List.length]. lia.
Qed.

Lemma feature_lists_NoDup i uls d :
  NoDup (map fst d) -> NoDup (map fst (feature_lists i uls d)).
Proof.
  revert i d. induction uls as [|ul rest IH]; intros i d ND; cbn [feature_lists].
  - exact ND.
  - destruct (firstn 5 ul); apply IH; [exact ND|].
    apply dict_set_NoDup, ND.
Qed.

Lemma found_features_get_other soup d k :
  found_features soup = inr d ->
  eqb (py "Product") k = false ->
  eqb (py "Price") k = false ->
  eqb (py "Description") k = false ->
  (forall n, eqb (py "Feature List " ++ str_of_nat n) k = false) ->
  dict_get k d = None.
Proof.
  intros F K1 K2 K3 K4. destruct (found_features_shape soup d F)
    as [desc [_ [[t [p ->]] | [[t ->] | [[p ->] | ->]]]]];
    rewrite ?(feature_lists_get k _ _ _ K4); cbn [dict_get];
    rewrite ?K1, ?K2, ?K3; reflexivity.
Qed.

Lemma found_features_size soup d :
  found_features soup = inr d ->
  (1 <= List.length d <= 4)%nat /\ NoDup (map fst d).
Proof.
  intros F.
  destruct (found_features_description soup d F) as [desc0 [G _]].
  pose proof (dict_get_some_length _ _ _ G) as L. clear G.
  destruct (found_features_shape soup d F)
    as [desc [_ [[t [p E]] | [[t E] | [[p E] | E]]]]]; subst d.
  - split; [simpl; lia|]. simpl. repeat constructor; simpl; intuition discriminate.
  - split; [simpl; lia|]. simpl. repeat constructor; simpl; intuition discriminate.
  - split; [simpl; lia|]. simpl. repeat constructor; simpl; intuition discriminate.
  - split; [split; [exact L|]|].
    + pose proof (feature_lists_length 0 (firstn 3 (find_all_ul_ol soup))
                    [(py "Description", desc)]) as B.
      rewrite length_firstn in B. cbn [List.length] in B. lia.
    + apply feature_lists_NoDup. simpl. repeat constructor. simpl. tauto.
Qed.

(** The result of [scrape_features]: what lines 143-173 found, or a
    failure map. *)
Lemma scrape_features_outcome url l :
  (exists soup d,
      found_features soup = inr d /\ fst (scrape_features url l) = d) \/
  (exists msg, fst (scrape_features url l) = [(py "error", msg)]).
Proof.
  unfold scrape_features, scrape_features_try, bind, emit, ret.
  simpl. destruct (requests_get url) as [[m|m]|response].
  - right. eexists. reflexivity.
  - right. eexists. reflexivity.
  - destruct (raise_for_status response) as [m|].
    + right. eexists. reflexivity.
    + simpl. rewrite features_of_found.
      destruct (found_features (BeautifulSoup (content response)))
        as [[m|m]|d] eqn:F.
      * right. eexists. reflexivity.
      * right. eexists. reflexivity.
      * left. eexists _, d. split; [exact F | reflexivity].
Qed.


(** X9. The descriptor of lines 176-182 (Title, URL, Content Length) is
    never returned: when lines 143-173 run to their end Description has
    been written, so the map is not empty at the test; when one of them
    raises, the result is a failure map. *)
Theorem scrape_features_never_descriptor (url : pystr) (l : log) :
  dict_has (py "Title") (fst (scrape_features url l)) = false /\
  dict_has (py "URL") (fst (scrape_features url l)) = false /\
  dict_has (py "Content Length") (fst (scrape_features url l)) = false.
Proof.
  destruct (scrape_features_outcome url l) as [[soup [d [F E]]] | [msg E]];
    rewrite E.
  - repeat split; apply dict_has_get;
      apply (found_features_get_other soup d _ F);
      try reflexivity; intros n; reflexivity.
  - repeat split; reflexivity.
Qed.

(** X10. Whatever the page and whatever the outcome of the fetch,
    [scrape_features] returns between one and four entries, and no key
    twice. *)
Theorem scrape_features_size (url : pystr) (l : log) :
  (1 <= List.length (fst (scrape_features url l)) <= 4)%nat /\
  NoDup (map fst (fst (scrape_features url l))).
Proof.
  destruct (scrape_features_outcome url l) as [[soup [d [F E]]] | [msg E]];
    rewrite E.
  - apply (found_features_size soup d F).
  - simpl. split; [lia|]. repeat constructor. simpl. tauto.
Qed.

End GenericExtractor.

(* ------------------------------------------------------------------ *)
(** ** The rendering extractor and the handler, further *)

Lemma verdict_cases result1 result2 :
  (exists e, verdict result1 result2 = (ErrorBody e, 400%N)) \/
  (verdict result1 result2 = (DataBody result1 result2, 200%N) /\
   error_free result1 /\ error_free result2).
Proof.
  unfold verdict, error_free.
  destruct (dict_get (py "error") result1) as [e|]; [left; eauto|].
  destruct (dict_get (py "error") result2) as [e|]; [left; eauto|].
  right. auto.
Qed.

Section HandlerFurther.
Context {W : World}.

(** X14. [scrape_dynamic_features] fetches and renders the page before
    it looks at the URL: whatever the outcome, one rendered fetch is made.
    An exception of the fetch or of the rendering, of whatever class, is
    reported as "Error scraping <url>: <message>"; a rendered page of a
    URL with neither "amazon" nor "flipkart" in it is reported as
    "Unsupported platform". *)
Theorem scrape_dynamic_features_outcomes (url : pystr) (l : log) :
  snd (scrape_dynamic_features url l) = l ++ [RenderedGet url] /\
  (forall e,
      session_get_render url = inl e ->
      fst (scrape_dynamic_features url l)
      = [(py "error", py "Error scraping " ++ url ++ py ": " ++ str_exn e)]) /\
  (forall html,
      session_get_render url = inr html ->
      contains (py "amazon") url = false ->
      contains (py "flipkart") url = false ->
      fst (scrape_dynamic_features url l)
      = [(py "error", py "Unsupported platform")]).
Proof.
  split; [rewrite scrape_dynamic_features_run; reflexivity|].
  unfold scrape_dynamic_features, scrape_dynamic_features_try, bind, emit, ret.
  simpl. split.
  - intros e R. rewrite R. reflexivity.
  - intros html R A F. rewrite R, A, F. reflexivity.
Qed.

(** X16. Both definitions of [compare] answer either 400 with an error
    message or 200 with two maps, neither of which has an "error" key;
    they make no network call or exactly two, and never answer 200
    without having made two. *)
Theorem compare_answers (request : payload) (l : log) :
  let answers (run : http_response * log) :=
    ((exists e, fst run = (ErrorBody e, 400%N)) /\
     (snd run = l \/ exists e1 e2, snd run = l ++ [e1; e2])) \/
    (exists data1 data2 e1 e2,
        run = ((DataBody data1 data2, 200%N), l ++ [e1; e2]) /\
        dict_has (py "error") data1 = false /\
        dict_has (py "error") data2 = false) in
  answers (FirstDefinition.compare request l) /\
  answers (SecondDefinition.compare request l).
Proof.
  intros answers. subst answers. cbv beta.
  destruct (compare_validation request l)
    as [[msg [_ [E1 E2]]] | [data [url1 [url2 [-> [G1 [G2 [V1 V2]]]]]]]].
  - rewrite E1, E2. split; left; simpl; eauto.
  - rewrite (first_compare_run data url1 url2 l G1 G2 V1 V2).
    rewrite (second_compare_run data url1 url2 l G1 G2 V1 V2).
    split.
    + destruct (verdict_cases (fst (FirstDefinition.route url1 []))
                  (fst (FirstDefinition.route url2 [])))
        as [[e E] | [E [F1 F2]]]; rewrite E.
      * left. simpl. eauto 6.
      * right. do 4 eexists. split; [reflexivity|].
        split; apply dict_has_get; assumption.
    + destruct (verdict_cases (fst (scrape_features url1 []))
                  (fst (scrape_features url2 [])))
        as [[e E] | [E [F1 F2]]]; rewrite E.
      * left. simpl. eauto 6.
      * right. do 4 eexists. split; [reflexivity|].
        split; apply dict_has_get; assumption.
Qed.

(** X17. The first definition of [compare] answers 200 exactly when the
    request has two URLs with an accepted prefix and neither extraction
    result has an "error" key; data1 and data2 are then the results for
    url1 and url2, in that order. *)
Theorem compare_success_iff
    (request : payload) (l : log) (data1 data2 : dict) :
  fst (FirstDefinition.compare request l) = (DataBody data1 data2, 200%N) <->
  exists data url1 url2,
    request = Some data /\
    dict_get (py "url1") data = Some url1 /\
    dict_get (py "url2") data = Some url2 /\
    is_valid_url url1 = true /\ is_valid_url url2 = true /\
    data1 = fst (FirstDefinition.route url1 []) /\
    data2 = fst (FirstDefinition.route url2 []) /\
    dict_has (py "error") data1 = false /\
    dict_has (py "error") data2 = false.
Proof.
  split.
  - intros H.
    destruct (compare_validation request l)
      as [[msg [_ [E1 _]]] | [data [url1 [url2 [-> [G1 [G2 [V1 V2]]]]]]]].
    + rewrite E1 in H. discriminate H.
    + rewrite (first_compare_run data url1 url2 l G1 G2 V1 V2) in H.
      simpl in H.
      destruct (verdict_cases (fst (FirstDefinition.route url1 []))
                  (fst (FirstDefinition.route url2 [])))
        as [[e E] | [E [F1 F2]]]; rewrite E in H; [discriminate H|].
      injection H as <- <-. exists data, url1, url2.
      repeat split; try assumption; try reflexivity;
        apply dict_has_get; assumption.
  - intros [data [url1 [url2 [-> [G1 [G2 [V1 [V2 [-> [-> [F1 F2]]]]]]]]]]].
    rewrite (first_compare_run data url1 url2 l G1 G2 V1 V2). simpl.
    apply dict_has_get in F1, F2. unfold verdict. rewrite F1, F2.
    reflexivity.
Qed.

(** X18. When the first extraction of the first definition of [compare]
    returns a map without "error" and the second, run after it, returns a
    failure, the answer is 400 with the second failure's message: the data
    of the first URL is not returned. *)
Theorem second_failure_is_surfaced
    (data : dict) (url1 url2 : pystr) (l : log) (e : pystr) :
  dict_get (py "url1") data = Some url1 ->
  dict_get (py "url2") data = Some url2 ->
  is_valid_url url1 = true -> is_valid_url url2 = true ->
  let run1 := FirstDefinition.route url1 l in
  let run2 := FirstDefinition.route url2 (snd run1) in
  dict_has (py "error") (fst run1) = false ->
  dict_get (py "error") (fst run2) = Some e ->
  fst (FirstDefinition.compare (Some data) l) = (ErrorBody e, 400%N).
Proof.
  intros G1 G2 V1 V2 run1 run2 F1 F2. subst run1 run2.
  rewrite route_run in F2. rewrite route_run in F1. simpl in F1, F2.
  apply dict_has_get in F1.
  rewrite (first_compare_run data url1 url2 l G1 G2 V1 V2). simpl.
  unfold verdict. rewrite F1, F2. reflexivity.
Qed.

(** X19. The two definitions of [compare] give the same answer and make
    the same network calls on every request whose URLs contain neither
    "amazon" nor "flipkart"; they can differ on no other ground. *)
Theorem compare_definitions_agree (request : payload) (l : log) :
  (forall data url,
      request = Some data ->
      dict_get (py "url1") data = Some url \/
      dict_get (py "url2") data = Some url ->
      contains (py "amazon") url = false /\
      contains (py "flipkart") url = false) ->
  FirstDefinition.compare request l = SecondDefinition.compare request l.
Proof.
  intros H.
  destruct (compare_validation request l)
    as [[msg [_ [E1 E2]]] | [data [url1 [url2 [-> [G1 [G2 [V1 V2]]]]]]]].
  - rewrite E1, E2. reflexivity.
  - rewrite (first_compare_run data url1 url2 l G1 G2 V1 V2).
    rewrite (second_compare_run data url1 url2 l G1 G2 V1 V2).
    destruct (H data url1 eq_refl (or_introl G1)) as [A1 F1].
    destruct (H data url2 eq_refl (or_intror G2)) as [A2 F2].
    unfold FirstDefinition.route, fetch_event.
    rewrite A1, F1, A2, F2. reflexivity.
Qed.

(** X20. Which rejection is reported, by both definitions: an empty JSON
    object counts as a missing payload; a URL that is absent or the empty
    string gives "Both URLs are required", also when the other URL has a
    bad prefix; the prefix message is given only when both URLs are there
    and non-empty. *)
Theorem compare_rejection_message (l : log) :
  let rejected request msg :=
    FirstDefinition.compare request l = ((ErrorBody msg, 400%N), l) /\
    SecondDefinition.compare request l = ((ErrorBody msg, 400%N), l) in
  rejected None (py "Missing JSON payload") /\
  rejected (Some []) (py "Missing JSON payload") /\
  (forall data,
      data <> [] ->
      falsy (dict_get (py "url1") data) = true \/
      falsy (dict_get (py "url2") data) = true ->
      rejected (Some data) (py "Both URLs are required")) /\
  (forall data,
      falsy (dict_get (py "url1") data) = false ->
      falsy (dict_get (py "url2") data) = false ->
      is_valid_url (get_str (dict_get (py "url1") data)) = false \/
      is_valid_url (get_str (dict_get (py "url2") data)) = false ->
      rejected (Some data) (py "URLs must start with http:// or https://")).
Proof.
  intros rejected. subst rejected. cbv beta.
  split; [split; reflexivity|]. split; [split; reflexivity|]. split.
  - intros [|p r] N H; [congruence|].
    assert (F : falsy (dict_get (py "url1") (p :: r))
                || falsy (dict_get (py "url2") (p :: r)) = true).
    { apply orb_true_iff. exact H. }
    unfold FirstDefinition.compare, SecondDefinition.compare.
    cbv beta iota zeta. rewrite F. split; reflexivity.
  - intros [|p r] F1 F2 H; [discriminate F1|].
    assert (V : negb (is_valid_url (get_str (dict_get (py "url1") (p :: r)))
                      && is_valid_url (get_str (dict_get (py "url2") (p :: r))))
                = true).
    { apply negb_true_iff, andb_false_iff. exact H. }
    unfold FirstDefinition.compare, SecondDefinition.compare.
    cbv beta iota zeta. rewrite F1, F2. cbn [orb]. rewrite V.
    split; reflexivity.
Qed.

(** X23. With [extract_text] unbound, as app.py leaves it, every plain
    extraction fails: the second definition of [compare] answers 400 to
    every request, and the first definition answers 200 only to requests
    whose two URLs both contain "amazon" or "flipkart". *)
Theorem compare_with_extract_text_unbound :
  extract_text = None ->
  (forall request l,
      snd (fst (SecondDefinition.compare request l)) = 400%N) /\
  (forall request l data1 data2,
      fst (FirstDefinition.compare request l) = (DataBody data1 data2, 200%N) ->
      exists data url1 url2,
        request = Some data /\
        dict_get (py "url1") data = Some url1 /\
        dict_get (py "url2") data = Some url2 /\
        contains (py "amazon") url1 || contains (py "flipkart") url1 = true /\
        contains (py "amazon") url2 || contains (py "flipkart") url2 = true).
Proof.
  intros U.
  assert (Plain : forall url l,
             dict_get (py "error") (fst (scrape_features url l)) <> None).
  { intros url l H. apply dict_has_get in H.
    destruct (scrape_features_outcome url l) as [[soup [d [F _]]] | [msg E]].
    - unfold found_features, call_extract_text in F. rewrite U in F.
      discriminate F.
    - rewrite E in H. discriminate H. }
  split.
  - intros request l.
    destruct (compare_validation request l)
      as [[msg [_ [_ E]]] | [data [url1 [url2 [-> [G1 [G2 [V1 V2]]]]]]]].
    + rewrite E. reflexivity.
    + rewrite (second_compare_run data url1 url2 l G1 G2 V1 V2). simpl.
      unfold verdict.
      destruct (dict_get (py "error") (fst (scrape_features url1 [])))
        eqn:E1; [reflexivity|]. destruct (Plain url1 [] E1).
  - intros request l data1 data2 H.
    destruct (compare_validation request l)
      as [[msg [_ [E _]]] | [data [url1 [url2 [-> [G1 [G2 [V1 V2]]]]]]]].
    + rewrite E in H. discriminate H.
    + rewrite (first_compare_run data url1 url2 l G1 G2 V1 V2) in H.
      simpl in H.
      destruct (verdict_cases (fst (FirstDefinition.route url1 []))
                  (fst (FirstDefinition.route url2 [])))
        as [[e E] | [_ [F1 F2]]]; [rewrite E in H; discriminate H|].
      exists data, url1, url2. repeat split; try assumption.
      * unfold FirstDefinition.route in F1.
        destruct (contains (py "amazon") url1 || contains (py "flipkart") url1);
          [reflexivity|]. destruct (Plain url1 [] F1).
      * unfold FirstDefinition.route in F2.
        destruct (contains (py "amazon") url2 || contains (py "flipkart") url2);
          [reflexivity|]. destruct (Plain url2 [] F2).
Qed.

End HandlerFurther.

(* ------------------------------------------------------------------ *)
(** ** The further properties at work in the small worlds *)

Lemma is_valid_url_spec_witness :
  is_valid_url (py "https://") = true /\ is_valid_url (py "HTTP://x") = false.
Proof.
  split.
  - apply (proj2 (is_valid_url_spec (py "https://"))).
    exists []. right. reflexivity.
  - destruct (is_valid_url (py "HTTP://x")) eqn:V; [|reflexivity].
    apply (proj1 (is_valid_url_spec (py "HTTP://x"))) in V.
    destruct V as [rest [E|E]]; discriminate E.
Defined.


Lemma scrape_dynamic_features_outcomes_witness :
  fst (@scrape_dynamic_features shop_world (py "https://www.amazon.example/") [])
  = [(py "error",
      py "Error scraping https://www.amazon.example/: render timed out")] /\
  fst (@scrape_dynamic_features demo_world (py "https://shop.example/w") [])
  = [(py "error", py "Unsupported platform")].
Proof.
  split.
  - apply (proj1 (proj2 (@scrape_dynamic_features_outcomes shop_world
                           (py "https://www.amazon.example/") []))
             (RequestException (py "render timed out"))).
    reflexivity.
  - apply (proj2 (proj2 (@scrape_dynamic_features_outcomes demo_world
                           (py "https://shop.example/w") []))
             phone_page); reflexivity.
Defined.

Lemma compare_success_iff_witness :
  fst (@FirstDefinition.compare demo_world
         (request_of (py "https://www.flipkart.example/p")
                     (py "https://www.amazon.example/dp/1")) [])
  = (DataBody
       [ (py "Product", py "Phone X"); (py "Price", py "499");
         (py "Battery", py "5000 mAh") ]
       [ (py "Product", py "Phone X"); (py "Price", py "N/A");
         (py "RAM", py "8 GB"); (py "Storage", py "128 GB") ],
     200%N).
Proof.
  apply (proj2 (@compare_success_iff demo_world _ [] _ _)).
  exists [(py "url1", py "https://www.flipkart.example/p");
          (py "url2", py "https://www.amazon.example/dp/1")],
    (py "https://www.flipkart.example/p"), (py "https://www.amazon.example/dp/1").
  repeat split.
Defined.

Lemma second_failure_is_surfaced_witness :
  fst (@FirstDefinition.compare demo_world
         (request_of (py "https://www.amazon.example/dp/1")
                     (py "http://down.example/p")) [])
  = (ErrorBody (py "Failed to fetch http://down.example/p: timed out"), 400%N).
Proof.
  apply (@second_failure_is_surfaced demo_world
           [(py "url1", py "https://www.amazon.example/dp/1");
            (py "url2", py "http://down.example/p")]
           (py "https://www.amazon.example/dp/1") (py "http://down.example/p")
           []); reflexivity.
Defined.

Lemma compare_with_extract_text_unbound_witness :
  snd (fst (@SecondDefinition.compare demo_world
              (request_of (py "https://shop.example/w")
                          (py "https://www.amazon.example/dp/1")) []))
  = 400%N /\
  exists data url1 url2,
    request_of (py "https://www.flipkart.example/p")
               (py "https://www.amazon.example/dp/1") = Some data /\
    dict_get (py "url1") data = Some url1 /\
    dict_get (py "url2") data = Some url2 /\
    contains (py "amazon") url1 || contains (py "flipkart") url1 = true /\
    contains (py "amazon") url2 || contains (py "flipkart") url2 = true.
Proof.
  pose proof (@compare_with_extract_text_unbound demo_world eq_refl)
    as [Second First].
  split.
  - apply Second.
  - apply (First _ [] (flipkart_adapter phone_page) (amazon_adapter phone_page)).
    reflexivity.
Defined.

Lemma compare_definitions_agree_witness :
  @FirstDefinition.compare demo_world
    (request_of (py "https://shop.example/w") (py "https://bare.example/")) []
  = @SecondDefinition.compare demo_world
      (request_of (py "https://shop.example/w") (py "https://bare.example/")) [].
Proof.
  apply (@compare_definitions_agree demo_world).
  intros data url [= <-] [G|G]; injection G as <-; split; reflexivity.
Defined.

(** Where the two definitions part: a marketplace URL is rendered by the
    first and fetched plainly by the second. *)
Example compare_definitions_differ :
  @FirstDefinition.compare demo_world
    (request_of (py "https://www.amazon.example/dp/1")
                (py "https://shop.example/w")) []
  <> @SecondDefinition.compare demo_world
       (request_of (py "https://www.amazon.example/dp/1")
                   (py "https://shop.example/w")) [].
Proof. intros H. apply (f_equal snd) in H. discriminate H. Qed.

Lemma compare_rejection_message_witness :
  @FirstDefinition.compare demo_world (Some [(py "url1", py "ftp://x")]) []
  = ((ErrorBody (py "Both URLs are required"), 400%N), []) /\
  @SecondDefinition.compare demo_world
    (request_of (py "ftp://x") (py "https://y")) []
  = ((ErrorBody (py "URLs must start with http:// or https://"), 400%N), []).
Proof.
  pose proof (@compare_rejection_message demo_world [])
    as [_ [_ [Both Prefix]]].
  split.
  - apply (Both [(py "url1", py "ftp://x")]); [discriminate|].
    right. reflexivity.
  - apply (Prefix [(py "url1", py "ftp://x"); (py "url2", py "https://y")]);
      try reflexivity.
    left. reflexivity.
Defined.

(* ------------------------------------------------------------------ *)
(** ** Vocabulary and values *)

(** X21. On ASCII labels the result of [normalize_key] is one of the
    seven canonical names exactly when some pattern of the table occurs in
    the trimmed lower-cased label: the title-cased fallback never yields a
    canonical name. *)
Theorem normalize_key_canonical_iff (raw : pystr) :
  ascii_only raw ->
  (In (normalize_key raw) canonical_names <->
   first_match mapping (strip (lower raw)) <> None).
Proof.
  intros A. split.
  - intros H M. unfold normalize_key in H. rewrite M in H.
    assert (K : lower (title (strip (lower raw))) = strip (lower raw)).
    { unfold title. rewrite lower_title_from_ascii.
      - rewrite <- strip_lower, lower_idem. reflexivity.
      - apply ascii_only_strip, ascii_only_lower, A. }
    rewrite <- K in M. unfold canonical_names in H. simpl in H.
    repeat (destruct H as [H|H];
            [rewrite <- H in M; vm_compute in M; discriminate M|]).
    destruct H.
  - intros M. destruct (normalize_key_cases raw) as [[v [F ->]]|[F _]].
    + apply (first_match_canonical _ _ F).
    + congruence.
Qed.

Lemma normalize_key_canonical_iff_witness :
  In (normalize_key (py "Rear Camera (MP)")) canonical_names /\
  first_match mapping (strip (lower (py "Colour"))) = None.
Proof.
  split.
  - apply (proj2 (normalize_key_canonical_iff (py "Rear Camera (MP)")
                    ltac:(unfold ascii_only; repeat constructor))).
    discriminate.
  - destruct (first_match mapping (strip (lower (py "Colour")))) eqn:M;
      [|reflexivity].
    assert (H : In (normalize_key (py "Colour")) canonical_names).
    { apply (proj2 (normalize_key_canonical_iff (py "Colour")
                      ltac:(unfold ascii_only; repeat constructor))).
      rewrite M. discriminate. }
    vm_compute in H. repeat (destruct H as [H|H]; [discriminate H|]).
    destruct H.
Defined.

Lemma strip_trimmed s : trimmed (strip s).
Proof.
  split; [apply strip_no_lead|].
  unfold strip, rstrip. rewrite rev_involutive. apply lstrip_no_lead.
Qed.

Lemma text_or_NA_trimmed el : trimmed (text_or_NA el).
Proof.
  destruct el as [t|]; simpl; [apply strip_trimmed|].
  split; reflexivity.
Qed.

Lemma dict_set_values (Q : pystr -> Prop) k v d :
  Q v ->
  Forall (fun kv => Q (snd kv)) d ->
  Forall (fun kv => Q (snd kv)) (dict_set k v d).
Proof.
  intros Qv. induction 1 as [|[k' v'] r H F IH]; simpl.
  - repeat constructor. exact Qv.
  - destruct (eqb k' k); constructor; assumption.
Qed.

Lemma assign_all_values (Q : pystr -> Prop) writes d :
  Forall (fun kv => Q (snd kv)) writes ->
  Forall (fun kv => Q (snd kv)) d ->
  Forall (fun kv => Q (snd kv)) (assign_all writes d).
Proof.
  unfold assign_all. intros Hw. revert d.
  induction Hw as [|[k v] r H F IH]; intros d Hd; simpl; [exact Hd|].
  apply IH. apply dict_set_values; assumption.
Qed.

(** X22. Every value in the map an adapter returns is free of white
    space at both ends: it is a trimmed text of the page, or "N/A". *)
Theorem adapter_values_trimmed (html : HTML) :
  Forall (fun kv => trimmed (snd kv)) (amazon_adapter html) /\
  Forall (fun kv => trimmed (snd kv)) (flipkart_adapter html).
Proof.
  rewrite amazon_adapter_assign, flipkart_adapter_assign.
  split; (apply assign_all_values; [|apply Forall_nil]).
  - unfold amazon_writes.
    apply Forall_cons; [apply text_or_NA_trimmed|].
    apply Forall_cons; [apply text_or_NA_trimmed|].
    apply Forall_flat_map, Forall_forall.
    intros [[k|] [v|]] _; repeat constructor; apply strip_trimmed.
  - unfold flipkart_writes.
    apply Forall_cons; [apply text_or_NA_trimmed|].
    apply Forall_cons; [apply text_or_NA_trimmed|].
    apply Forall_flat_map, Forall_forall. intros section _.
    apply Forall_flat_map, Forall_forall.
    intros [|c0 [|c1 [|c2 r]]] _; repeat constructor; apply strip_trimmed.
Qed.
